(** * Option analyzer: a shallow embedding of [main.py]

    The development embeds [ComprehensiveOptionsAnalyzer.analyze_option]
    and the library operations it calls (numpy scalars, pandas [Series]
    reductions, [scipy.stats.norm.cdf]), and proves the properties of
    the statistics and of the probability-of-profit estimate.

    Numbers.  A numpy [float64] is modelled by [np_float]: a real number
    or one of the IEEE special values [+inf], [-inf], [nan].  Arithmetic
    on finite values is exact real arithmetic: rounding, overflow and
    the sign of zero are abstracted (every zero divisor that arises in
    the analyzer is a positive zero).  The special values follow IEEE 754
    and numpy: a division by zero yields an infinity or [nan] together
    with a warning, never an exception.  The days to expiry are a Python
    integer, of any size: dividing it by [365.0] converts it to a float
    first, and that conversion raises [OverflowError] when the integer
    is beyond the range of the floats.

    Effects.  [analyze_option] prints a line, asks the market-data
    collaborator for the price history, and shows a figure.  A run
    returns a value or raises, and logs the line printed and the figure
    shown; [plot_comprehensive_analysis] only draws and is taken to
    return. *)

From Stdlib Require Import Reals RList Lra Lia ZArith String Ascii Bool List.
From Stdlib Require DecimalString.
Import ListNotations.

Local Open Scope R_scope.

(** ** numpy [float64] scalars *)

Inductive np_float : Type :=
| Fin (r : R)
| PInf
| NInf
| NaN.

(** The sign of a real, decided by trichotomy. *)
Inductive sign : Type := Neg | Zero | Pos.

Definition Rsign (r : R) : sign :=
  match total_order_T r 0 with
  | inleft (left _) => Neg
  | inleft (right _) => Zero
  | inright _ => Pos
  end.

(** The operations, named as in [numpy]. *)
Module np.

Definition isnan (x : np_float) : bool :=
  match x with NaN => true | _ => false end.

Definition neg (x : np_float) : np_float :=
  match x with
  | Fin r => Fin (- r)
  | PInf => NInf
  | NInf => PInf
  | NaN => NaN
  end.

Definition add (x y : np_float) : np_float :=
  match x, y with
  | NaN, _ | _, NaN => NaN
  | Fin a, Fin b => Fin (a + b)
  | PInf, NInf | NInf, PInf => NaN
  | PInf, _ | _, PInf => PInf
  | NInf, _ | _, NInf => NInf
  end.

Definition sub (x y : np_float) : np_float := add x (neg y).

(** An infinity with the sign of [s]; [nan] for [0 * inf]. *)
Definition signed_inf (s : sign) : np_float :=
  match s with Pos => PInf | Neg => NInf | Zero => NaN end.

Definition mul (x y : np_float) : np_float :=
  match x, y with
  | NaN, _ | _, NaN => NaN
  | Fin a, Fin b => Fin (a * b)
  | Fin a, PInf | PInf, Fin a => signed_inf (Rsign a)
  | Fin a, NInf | NInf, Fin a => neg (signed_inf (Rsign a))
  | PInf, PInf | NInf, NInf => PInf
  | PInf, NInf | NInf, PInf => NInf
  end.

(** [x / y].  A finite value divided by zero is an infinity with the
    sign of the numerator, and [0 / 0] is [nan]; numpy reports both with
    a [RuntimeWarning] and returns the value. *)
Definition div (x y : np_float) : np_float :=
  match x, y with
  | NaN, _ | _, NaN => NaN
  | Fin a, Fin b =>
      match Rsign b with
      | Zero => signed_inf (Rsign a)
      | _ => Fin (a / b)
      end
  | Fin _, _ => Fin 0
  | PInf, Fin b => match Rsign b with Neg => NInf | _ => PInf end
  | NInf, Fin b => match Rsign b with Neg => PInf | _ => NInf end
  | _, _ => NaN
  end.

(** [x ** 2] *)
Definition sq (x : np_float) : np_float := mul x x.

(** [np.sqrt] *)
Definition sqrt (x : np_float) : np_float :=
  match x with
  | Fin a => match Rsign a with Neg => NaN | _ => Fin (R_sqrt.sqrt a) end
  | PInf => PInf
  | _ => NaN
  end.

(** [np.log] *)
Definition log (x : np_float) : np_float :=
  match x with
  | Fin a =>
      match Rsign a with
      | Pos => Fin (ln a)
      | Zero => NInf
      | Neg => NaN
      end
  | PInf => PInf
  | _ => NaN
  end.

(** [abs] *)
Definition abs (x : np_float) : np_float :=
  match x with
  | Fin a => Fin (Rabs a)
  | PInf | NInf => PInf
  | NaN => NaN
  end.

(** [x <= y]; every comparison with [nan] is false. *)
Definition leb (x y : np_float) : bool :=
  match x, y with
  | NaN, _ | _, NaN => false
  | NInf, _ | _, PInf => true
  | Fin a, Fin b => if Rle_dec a b then true else false
  | _, _ => false
  end.

Definition le (x y : np_float) : Prop := leb x y = true.

Definition maximum (x y : np_float) : np_float := if leb x y then y else x.
Definition minimum (x y : np_float) : np_float := if leb x y then x else y.

End np.

(** ** pandas [Series] of floats *)

(** Python exceptions, identified by their class name. *)
Definition exn : Type := string.
Definition IndexError : exn := "IndexError"%string.

Module Pandas.
Import np.

Definition Series : Type := list np_float.

(** [s.iloc[-1]]: the last element; an empty series raises
    [IndexError]. *)
Fixpoint iloc_last (s : Series) : exn + np_float :=
  match s with
  | [] => inl IndexError
  | [x] => inr x
  | _ :: s' => iloc_last s'
  end.

(** [s / s.shift(1) - 1] from the second element on, [prev] being the
    element before [s]. *)
Fixpoint pct_from (prev : np_float) (s : Series) : Series :=
  match s with
  | [] => []
  | x :: s' => sub (div x prev) (Fin 1) :: pct_from x s'
  end.

(** [s.pct_change()]: the first entry has no predecessor and is [nan].
    (Missing values are not filled, as with [fill_method=None]; with the
    older default the result is the same on a series without [nan].) *)
Definition pct_change (s : Series) : Series :=
  match s with
  | [] => []
  | x :: s' => NaN :: pct_from x s'
  end.

(** [s.dropna()] *)
Definition dropna (s : Series) : Series :=
  filter (fun x => negb (isnan x)) s.

(** [abs(s)] *)
Definition abs (s : Series) : Series := map np.abs s.

(** Sum of the entries, from 0. *)
Definition sum (s : Series) : np_float := fold_left add s (Fin 0).

(** [s.mean()], skipping [nan]; the mean of no value is [nan]. *)
Definition mean (s : Series) : np_float :=
  let v := dropna s in
  div (sum v) (Fin (INR (length v))).

(** [s.std()], skipping [nan], with the default [ddof=1]: the sum of the
    squared deviations from the mean over [count - 1]; [nan] when
    [count <= ddof]. *)
Definition std (s : Series) : np_float :=
  let v := dropna s in
  let count := length v in
  if (count <=? 1)%nat then NaN
  else
    let avg := div (sum v) (Fin (INR count)) in
    sqrt (div (sum (map (fun x => sq (sub avg x)) v))
              (Fin (INR (count - 1)))).

(** [s.max()] and [s.min()], skipping [nan]; [nan] when nothing is
    left. *)
Definition max (s : Series) : np_float :=
  match dropna s with
  | [] => NaN
  | x :: v => fold_left maximum v x
  end.

Definition min (s : Series) : np_float :=
  match dropna s with
  | [] => NaN
  | x :: v => fold_left minimum v x
  end.

End Pandas.

(** ** [scipy.stats.norm]: the standard normal distribution *)

Module Scipy.

Section Integrable.

Variable f : R -> R.
Hypothesis f_continuity : continuity f.

(** A continuous function is integrable between any two bounds. *)
Lemma continuous_integrable (a b : R) : Riemann_integrable f a b.
Proof.
  destruct (Rle_dec a b) as [Hab | Hab].
  - apply continuity_implies_RiemannInt; [exact Hab |].
    intros; apply f_continuity.
  - apply RiemannInt_P1, continuity_implies_RiemannInt; [lra |].
    intros; apply f_continuity.
Qed.

End Integrable.

(** The density of the standard normal law, without its constant
    [1 / sqrt (2 * PI)]. *)
Definition gauss_density (t : R) : R := exp (- (t * t) / 2).

Lemma gauss_density_continuity : continuity gauss_density.
Proof. unfold gauss_density. reg. Qed.

(** The signed area under the density between 0 and [x]. *)
Definition gauss_area (x : R) : R :=
  RiemannInt (continuous_integrable gauss_density gauss_density_continuity 0 x).

(** The cumulative distribution function of the standard normal law,
    [1 / sqrt (2 * PI)] times the integral of [exp (- t^2 / 2)] up to
    [x], the half line left of 0 weighing one half. *)
Definition Phi (x : R) : R := 1 / 2 + gauss_area x / sqrt (2 * PI).

(** [norm.cdf] on a numpy scalar. *)
Module norm.

Definition cdf (x : np_float) : np_float :=
  match x with
  | Fin r => Fin (Phi r)
  | PInf => Fin 1
  | NInf => Fin 0
  | NaN => NaN
  end.

End norm.

End Scipy.

Module norm := Scipy.norm.

(** ** The analyzer *)

(** The [analysis] dictionary that [analyze_option] builds: its keys are
    fixed, so it is a record. *)
Module Analysis.

Record t : Type := mk {
  ticker : string;
  current_price : np_float;
  strike_price : np_float;
  days_to_expiry : Z;
  volatility : np_float;
  avg_daily_move : np_float;
  max_daily_gain : np_float;
  max_daily_loss : np_float;
  prob_profit : np_float;
  investment_amount : R;
  option_type : string
}.

End Analysis.

(** What a call does besides returning: the line it prints and the
    figure it shows. *)
Inductive event : Type :=
| Print (msg : string)
| Plot (analysis : Analysis.t) (price_history : Pandas.Series).

(** Computations that may raise and that log their events in order. *)
Definition M (A : Type) : Type := list event -> (exn + A) * list event.

Definition ret {A} (x : A) : M A := fun log => (inr x, log).

Definition bind {A B} (c : M A) (k : A -> M B) : M B :=
  fun log =>
    match c log with
    | (inl e, log') => (inl e, log')
    | (inr x, log') => k x log'
    end.

Definition emit (ev : event) : M unit := fun log => (inr tt, log ++ [ev]).

(** A call into a library that returns or raises. *)
Definition call {A} (r : exn + A) : M A := fun log => (r, log).

Definition run {A} (c : M A) : (exn + A) * list event := c [].

Notation "x <- c ;; k" := (bind c (fun x => k))
  (at level 61, c at next level, right associativity).
Notation "c ;;; k" := (bind c (fun _ => k))
  (at level 61, right associativity).

Record ComprehensiveOptionsAnalyzer : Type := {
  risk_free_rate : R
}.

(** [__init__] *)
Definition init : ComprehensiveOptionsAnalyzer :=
  {| risk_free_rate := 5 / 100 |}.

(** The intermediate values of [analyze_option], each named as the local
    variable that holds it. *)

Definition daily_returns (close : Pandas.Series) : Pandas.Series :=
  Pandas.dropna (Pandas.pct_change close).

Definition volatility (daily_returns : Pandas.Series) : np_float :=
  np.mul (Pandas.std daily_returns) (np.sqrt (Fin 252)).

Definition avg_daily_move (daily_returns : Pandas.Series) : np_float :=
  Pandas.mean (Pandas.abs daily_returns).

Definition max_daily_gain (daily_returns : Pandas.Series) : np_float :=
  Pandas.max daily_returns.

Definition max_daily_loss (daily_returns : Pandas.Series) : np_float :=
  Pandas.min daily_returns.

Definition OverflowError : exn := "OverflowError"%string.

(** The integers that convert to a float.  The conversion rounds to the
    nearest double, ties to even, and raises [OverflowError] when the
    result would be beyond the largest double [2^1024 - 2^971]: that is
    from [2^1024 - 2^970] on, in absolute value. *)
Definition float_limit : Z := 2 ^ 1024 - 2 ^ 970.

(** The value of [days_to_expiry / 365.0] when the conversion
    succeeds. *)
Definition days_over_365 (days_to_expiry : Z) : np_float :=
  Fin (IZR days_to_expiry / 365).

(** [days_to_expiry / 365.0]: the integer is converted to a float, which
    raises beyond the range of the floats, and divided by a non-zero
    constant. *)
Definition time_to_expiry (days_to_expiry : Z) : exn + np_float :=
  if (Z.abs days_to_expiry <? float_limit)%Z
  then inr (days_over_365 days_to_expiry)
  else inl OverflowError.

Definition std_dev (volatility time_to_expiry : np_float) : np_float :=
  np.mul volatility (np.sqrt time_to_expiry).

Definition prob_profit (option_type : string)
    (strike_price current_price std_dev : np_float) : np_float :=
  if String.eqb option_type "call" then
    np.sub (Fin 1)
      (norm.cdf (np.div (np.log (np.div strike_price current_price)) std_dev))
  else
    norm.cdf (np.div (np.log (np.div strike_price current_price)) std_dev).

(** The probability metrics, lines 29 to 34 of [analyze_option]: the time
    to expiry, the standard deviation at expiry and the probability of
    profit. *)
Definition probability_metrics (option_type : string)
    (strike_price current_price volatility : np_float)
    (days_to_expiry : Z) : exn + np_float :=
  match time_to_expiry days_to_expiry with
  | inl e => inl e
  | inr time_to_expiry =>
      let std_dev := std_dev volatility time_to_expiry in
      inr (prob_profit option_type strike_price current_price std_dev)
  end.

(** The line printed on entry. *)
Definition banner (ticker option_type : string) : string :=
  String "010"%char
    ("Analyzing " ++ ticker ++ " " ++ option_type ++ " option...").

Section Analyzer.

(** The market-data collaborator: [yf.Ticker(ticker).history(period='3mo')],
    of which the analyzer reads the ['Close'] column.  It returns the
    closing prices in date order, or raises. *)
Variable history : string -> exn + Pandas.Series.

Definition analyze_option (self : ComprehensiveOptionsAnalyzer)
    (ticker : string) (strike_price : np_float) (days_to_expiry : Z)
    (option_type : string) (investment_amount : R) : M Analysis.t :=
  emit (Print (banner ticker option_type)) ;;;
  hist <- call (history ticker) ;;
  current_price <- call (Pandas.iloc_last hist) ;;
  let daily_returns := daily_returns hist in
  let volatility := volatility daily_returns in
  let avg_daily_move := avg_daily_move daily_returns in
  let max_daily_gain := max_daily_gain daily_returns in
  let max_daily_loss := max_daily_loss daily_returns in
  time_to_expiry <- call (time_to_expiry days_to_expiry) ;;
  let std_dev := std_dev volatility time_to_expiry in
  let prob_profit :=
    prob_profit option_type strike_price current_price std_dev in
  let analysis :=
    Analysis.mk ticker current_price strike_price days_to_expiry volatility
      avg_daily_move max_daily_gain max_daily_loss prob_profit
      investment_amount option_type in
  emit (Plot analysis hist) ;;;
  ret analysis.

End Analyzer.

(** ** The statistics as the specification words them

    These definitions follow the specification, over the reals; the
    analyzer's own values are compared with them below. *)

Definition Rsum (l : list R) : R := fold_right Rplus 0 l.

(** return[i] = price[i] / price[i-1] - 1, for i = 1 .. n-1 *)
Definition spec_return_series (price : list R) : list R :=
  map (fun i => nth i price 0 / nth (i - 1) price 0 - 1)
      (seq 1 (length price - 1)).

Definition spec_mean (l : list R) : R := Rsum l / INR (length l).

(** The sample standard deviation: divisor n - 1. *)
Definition spec_sample_stdev (l : list R) : R :=
  sqrt (Rsum (map (fun r => (r - spec_mean l) ^ 2) l) / INR (length l - 1)).

(** ** Comparisons and maxima of scalars *)

(** [x < y]; false when either side is [nan]. *)
Definition np_ltb (x y : np_float) : bool :=
  np.leb x y && negb (np.leb y x).

(** [np.maximum] of two scalars: [nan] on either side propagates. *)
Definition np_maximum (x y : np_float) : np_float :=
  if np.isnan y then NaN else np.maximum x y.

(** Python's builtin [max(x, y)]: the first argument unless the second
    compares greater. *)
Definition py_max (x y : np_float) : np_float :=
  if np_ltb x y then y else x.

(** ** The payoff diagram of [plot_comprehensive_analysis]

    The figure itself is drawn by matplotlib; what is embedded is the
    data of the second plot: the prices on the horizontal axis and the
    profit or loss drawn against them. *)

Module Plot.

(** [np.linspace(start, stop, num)]: [arange(0, num) * step + start] with
    [step = (stop - start) / (num - 1)], the last point being set to
    [stop]. *)
Definition linspace (start stop : np_float) (num : nat) : list np_float :=
  match num with
  | O => []
  | S O => [np.add (np.mul (Fin 0) (np.sub stop start)) start]
  | S div =>
      let step := np.div (np.sub stop start) (Fin (INR div)) in
      map (fun i => np.add (np.mul (Fin (INR i)) step) start) (seq 0 div)
      ++ [stop]
  end.

Definition price_range (analysis : Analysis.t) : list np_float :=
  linspace (np.mul (Analysis.current_price analysis) (Fin (7 / 10)))
           (np.mul (Analysis.current_price analysis) (Fin (13 / 10)))
           100.

Definition profit (analysis : Analysis.t) : list np_float :=
  let price_range := price_range analysis in
  let current_price := Analysis.current_price analysis in
  let strike_price := Analysis.strike_price analysis in
  if String.eqb (Analysis.option_type analysis) "call" then
    map (fun p =>
           np.sub (np_maximum (np.sub p strike_price) (Fin 0))
                  (np.sub current_price strike_price))
        price_range
  else
    map (fun p =>
           np.sub (np_maximum (np.sub strike_price p) (Fin 0))
                  (np.sub strike_price current_price))
        price_range.

End Plot.

(** ** [explain_analysis] *)

Definition nl : string := String "010"%char EmptyString.

(** [str(n)] of a Python integer. *)
Definition str_int (n : Z) : string :=
  DecimalString.NilZero.string_of_int (Z.to_int n).

Module Explain.

Section Formats.

(** Python's number and string formatting: [f"{x:.2f}"], [f"{x:.1%}"] and
    [str.upper].  The text of the explanation is built from them; what
    is proved about it holds whatever they print. *)
Variable format_2f : np_float -> string.
Variable format_1pct : np_float -> string.
Variable upper : string -> string.

Definition is_call (analysis : Analysis.t) : bool :=
  String.eqb (Analysis.option_type analysis) "call".

(** 1. Basic Information *)
Definition basic_information (analysis : Analysis.t) : string :=
  nl ++ "🔍 BASIC INFORMATION:" ++ nl
  ++ "Stock: " ++ Analysis.ticker analysis ++ nl
  ++ "Current Stock Price: $"
  ++ format_2f (Analysis.current_price analysis) ++ nl
  ++ "Strike Price: $" ++ format_2f (Analysis.strike_price analysis) ++ nl
  ++ "Days until Expiration: "
  ++ str_int (Analysis.days_to_expiry analysis) ++ nl
  ++ "Option Type: " ++ upper (Analysis.option_type analysis) ++ nl.

(** 2. Position Status *)
Definition position_status (analysis : Analysis.t) : string :=
  let current_price := Analysis.current_price analysis in
  let strike_price := Analysis.strike_price analysis in
  nl ++ "📊 POSITION STATUS:" ++ nl
  ++ (if is_call analysis then
        if np_ltb strike_price current_price then
          "✅ IN THE MONEY: The stock price is above your strike price" ++ nl
          ++ "   You're currently up $"
          ++ format_2f (np.sub current_price strike_price)
          ++ " per share" ++ nl
        else
          "⚠️ OUT OF THE MONEY: The stock price is below your strike price"
          ++ nl
          ++ "   You need the stock to rise $"
          ++ format_2f (np.sub strike_price current_price)
          ++ " to break even" ++ nl
      else
        if np_ltb current_price strike_price then
          "✅ IN THE MONEY: The stock price is below your strike price" ++ nl
          ++ "   You're currently up $"
          ++ format_2f (np.sub strike_price current_price)
          ++ " per share" ++ nl
        else
          "⚠️ OUT OF THE MONEY: The stock price is above your strike price"
          ++ nl
          ++ "   You need the stock to fall $"
          ++ format_2f (np.sub current_price strike_price)
          ++ " to break even" ++ nl).

Definition risk_level (volatility : np_float) : string :=
  if np_ltb volatility (Fin (15 / 100)) then "LOW"
  else if np_ltb volatility (Fin (3 / 10)) then "MEDIUM"
  else "HIGH".

(** 3. Risk Assessment *)
Definition risk_assessment (analysis : Analysis.t) : string :=
  nl ++ "⚠️ RISK ASSESSMENT:" ++ nl
  ++ "Market Volatility: " ++ format_1pct (Analysis.volatility analysis) ++ nl
  ++ "Risk Level: " ++ risk_level (Analysis.volatility analysis) ++ nl
  ++ nl ++ "Daily Price Movements:" ++ nl
  ++ "- Average: " ++ format_1pct (Analysis.avg_daily_move analysis) ++ nl
  ++ "- Largest Gain: "
  ++ format_1pct (Analysis.max_daily_gain analysis) ++ nl
  ++ "- Largest Loss: "
  ++ format_1pct (Analysis.max_daily_loss analysis) ++ nl.

(** 4. Profit Potential *)
Definition profit_potential (analysis : Analysis.t) : string :=
  nl ++ "💰 PROFIT POTENTIAL:" ++ nl
  ++ "Probability of Profit: "
  ++ format_1pct (Analysis.prob_profit analysis) ++ nl.

Definition price_up_10 (analysis : Analysis.t) : np_float :=
  np.mul (Analysis.current_price analysis) (Fin (110 / 100)).

Definition price_down_10 (analysis : Analysis.t) : np_float :=
  np.mul (Analysis.current_price analysis) (Fin (90 / 100)).

(** The [profit] of a scenario: what the option is worth at [price]. *)
Definition scenario_profit (analysis : Analysis.t) (price : np_float)
  : np_float :=
  if is_call analysis then
    py_max (np.sub price (Analysis.strike_price analysis)) (Fin 0)
  else
    py_max (np.sub (Analysis.strike_price analysis) price) (Fin 0).

(** 5. Scenarios *)
Definition scenarios (analysis : Analysis.t) : string :=
  nl ++ "🎯 POSSIBLE SCENARIOS:" ++ nl
  ++ "If the stock goes up 10%:" ++ nl
  ++ "- Option would be worth: $"
  ++ format_2f (scenario_profit analysis (price_up_10 analysis))
  ++ " per share" ++ nl
  ++ nl ++ "If the stock goes down 10%:" ++ nl
  ++ "- Option would be worth: $"
  ++ format_2f (scenario_profit analysis (price_down_10 analysis))
  ++ " per share" ++ nl.

(** The advice on the time left. *)
Definition expiry_advice (days_to_expiry : Z) : string :=
  if (days_to_expiry <? 7)%Z then
    "⚡ IMMEDIATE ATTENTION NEEDED: Very close to expiration" ++ nl
  else if (days_to_expiry <? 30)%Z then
    "👀 MONITOR CLOSELY: Less than 30 days to expiration" ++ nl
  else
    "✅ TIME IS ON YOUR SIDE: More than 30 days to expiration" ++ nl.

(** The advice on the risk level. *)
Definition risk_advice (risk_level : string) : string :=
  if String.eqb risk_level "HIGH" then
    "- Consider using stop losses to manage risk" ++ nl
    ++ "- Think about taking partial profits if available" ++ nl
  else if String.eqb risk_level "MEDIUM" then
    "- Monitor the position regularly" ++ nl
    ++ "- Have a clear exit strategy" ++ nl
  else
    "- Stay within your investment plan" ++ nl
    ++ "- Watch for changes in market conditions" ++ nl.

(** 6. Recommendations *)
Definition recommendations (analysis : Analysis.t) : string :=
  nl ++ "💡 RECOMMENDATIONS:" ++ nl
  ++ expiry_advice (Analysis.days_to_expiry analysis)
  ++ risk_advice (risk_level (Analysis.volatility analysis)).

Definition explain_analysis (analysis : Analysis.t) : string :=
  nl ++ "=== COMPREHENSIVE OPTION ANALYSIS ===" ++ nl
  ++ basic_information analysis
  ++ position_status analysis
  ++ risk_assessment analysis
  ++ profit_potential analysis
  ++ scenarios analysis
  ++ recommendations analysis.

End Formats.

End Explain.

(** ** [main] *)

Section Main.

Variable history : string -> exn + Pandas.Series.
Variable format_2f : np_float -> string.
Variable format_1pct : np_float -> string.
Variable upper : string -> string.

Definition main : M unit :=
  let analyzer := init in
  analysis <- analyze_option history analyzer "AAPL" (Fin 170) 30 "call"
                1000 ;;
  emit (Print (Explain.explain_analysis format_2f format_1pct upper analysis)).

End Main.

(** The errors that the specification names; the code defines and
    raises none of them. *)
Definition InvalidParameterError : exn := "InvalidParameterError"%string.
Definition InsufficientDataError : exn := "InsufficientDataError"%string.
Definition DataUnavailableError : exn := "DataUnavailableError"%string.

(** ** Auxiliary definitions for the statements *)

(** The threshold in standard deviations, on valid inputs:
    [log (strike / current) / (volatility * sqrt (days / 365))]. *)
Definition threshold (S K sigma : R) (d : Z) : R :=
  ln (K / S) / (sigma * sqrt (IZR d / 365)).

(** The returns by a pass over the list, as [pct_change] computes them. *)
Fixpoint Rpct_from (prev : R) (l : list R) : list R :=
  match l with
  | [] => []
  | x :: l' => (x / prev - 1) :: Rpct_from x l'
  end.

(** The record built from a fetched series and its last close, the days
    to expiry being in the range of the floats. *)
Definition analysis_of (hist : Pandas.Series) (current_price : np_float)
    (ticker : string) (strike_price : np_float) (days_to_expiry : Z)
    (option_type : string) (investment_amount : R) : Analysis.t :=
  let dr := daily_returns hist in
  Analysis.mk ticker current_price strike_price days_to_expiry
    (volatility dr) (avg_daily_move dr) (max_daily_gain dr)
    (max_daily_loss dr)
    (prob_profit option_type strike_price current_price
       (std_dev (volatility dr) (days_over_365 days_to_expiry)))
    investment_amount option_type.

(** * Properties *)

(** ** Signs and finite arithmetic *)

Lemma Rsign_pos r : 0 < r -> Rsign r = Pos.
Proof.
  intro H. unfold Rsign.
  destruct (total_order_T r 0) as [[Hlt | Heq] | Hgt]; try reflexivity; lra.
Qed.

Lemma Rsign_neg r : r < 0 -> Rsign r = Neg.
Proof.
  intro H. unfold Rsign.
  destruct (total_order_T r 0) as [[Hlt | Heq] | Hgt]; try reflexivity; lra.
Qed.

Lemma Rsign_zero : Rsign 0 = Zero.
Proof.
  unfold Rsign.
  destruct (total_order_T 0 0) as [[Hlt | Heq] | Hgt]; try reflexivity; lra.
Qed.

Lemma Rsign_nonzero r : r <> 0 -> Rsign r <> Zero.
Proof.
  intro H. unfold Rsign.
  destruct (total_order_T r 0) as [[Hlt | Heq] | Hgt]; try discriminate.
  contradiction.
Qed.

Lemma div_Fin a b : b <> 0 -> np.div (Fin a) (Fin b) = Fin (a / b).
Proof.
  intro H. unfold np.div.
  pose proof (Rsign_nonzero b H). destruct (Rsign b); congruence.
Qed.

Lemma sqrt_Fin a : 0 <= a -> np.sqrt (Fin a) = Fin (sqrt a).
Proof.
  intro H. unfold np.sqrt, Rsign.
  destruct (total_order_T a 0) as [[Hlt | Heq] | Hgt]; try reflexivity; lra.
Qed.

Lemma log_Fin a : 0 < a -> np.log (Fin a) = Fin (ln a).
Proof.
  intro H. unfold np.log. rewrite Rsign_pos by assumption. reflexivity.
Qed.

Lemma leb_Fin a b : np.leb (Fin a) (Fin b) = true <-> a <= b.
Proof.
  unfold np.leb. destruct (Rle_dec a b); split; intro; try assumption;
    try reflexivity; try discriminate; contradiction.
Qed.

(** ** Integrals and derivatives *)

Import Scipy.

Section Calculus.

Variable f : R -> R.
Hypothesis f_continuity : continuity f.

(** The integral from [a] is an antiderivative. *)
Lemma integral_deriv (a x : R) :
  derivable_pt_lim
    (fun y => RiemannInt (continuous_integrable f f_continuity a y)) x (f x).
Proof.
  assert (h : x - 1 <= x + 1) by lra.
  assert (C0 : forall y, x - 1 <= y <= x + 1 -> continuity_pt f y)
    by (intros; apply f_continuity).
  apply derivable_pt_lim_locally_ext
    with (f := fun y =>
                 RiemannInt (continuous_integrable f f_continuity a (x - 1))
                 + primitive h (FTC_P1 h C0) y)
         (a := x - 1) (b := x + 1); [lra | |].
  - intros z Hz. unfold primitive.
    destruct (Rle_dec (x - 1) z) as [H1 | H1]; [| lra].
    destruct (Rle_dec z (x + 1)) as [H2 | H2]; [| lra].
    apply RiemannInt_P26.
  - replace (f x) with (0 + f x) by ring.
    apply derivable_pt_lim_plus.
    + apply derivable_pt_lim_const.
    + apply RiemannInt_P27. lra.
Qed.

(** The integral of a derivative. *)
Lemma integral_of_derivative (F : R -> R) (a b : R)
    (pr : Riemann_integrable f a b) :
  (forall x, derivable_pt_lim F x (f x)) ->
  RiemannInt pr = F b - F a.
Proof.
  intro HF.
  set (H := fun y =>
              RiemannInt (continuous_integrable f f_continuity a y) - F y).
  assert (dH : forall y, derivable_pt_lim H y 0).
  { intro y. unfold H. replace 0 with (f y - f y) by ring.
    apply derivable_pt_lim_minus; [apply integral_deriv | apply HF]. }
  assert (dr : derivable H) by (intro y; exists 0; apply dH).
  assert (HC : constant H).
  { apply null_derivative_1 with (pr := dr).
    intro y. apply derive_pt_eq_0, dH. }
  specialize (HC b a). unfold H in HC.
  rewrite (RiemannInt_P9 (continuous_integrable f f_continuity a a)) in HC.
  rewrite (RiemannInt_P5 pr (continuous_integrable f f_continuity a b)). lra.
Qed.

End Calculus.

(** A function with a bounded second derivative is close to its
    tangent. *)
Section SecondOrder.

Variables f f1 f2 : R -> R.
Variable M : R.
Hypothesis f_deriv : forall x, derivable_pt_lim f x (f1 x).
Hypothesis f1_deriv : forall x, derivable_pt_lim f1 x (f2 x).
Hypothesis f2_bound : forall x, Rabs (f2 x) <= M.

Lemma mean_value (g g' : R -> R) (a b : R) :
  (forall x, derivable_pt_lim g x (g' x)) ->
  exists c, g b - g a = g' c * (b - a) /\ Rmin a b <= c <= Rmax a b.
Proof.
  intro Hg. destruct (Rtotal_order a b) as [Hlt | [Heq | Hgt]].
  - destruct (MVT_cor2 g g' a b Hlt (fun c _ => Hg c)) as (c & Hc & Hin).
    exists c. split; [exact Hc |].
    rewrite Rmin_left, Rmax_right by lra. lra.
  - subst b. exists a. split; [ring |].
    rewrite Rmin_left, Rmax_right by lra. lra.
  - destruct (MVT_cor2 g g' b a Hgt (fun c _ => Hg c)) as (c & Hc & Hin).
    exists c. split; [lra |].
    rewrite Rmin_right, Rmax_left by lra. lra.
Qed.

Lemma tangent_bound (x h : R) :
  Rabs (f (x + h) - f x - h * f1 x) <= M * (h * h).
Proof.
  destruct (mean_value f f1 x (x + h) f_deriv) as (c & Hc & Hin).
  destruct (mean_value f1 f2 x c f1_deriv) as (c' & Hc' & _).
  replace (f (x + h) - f x - h * f1 x) with (h * (f2 c' * (c - x)))
    by (rewrite <- Hc'; replace (x + h - x) with h in Hc by ring; lra).
  rewrite !Rabs_mult.
  assert (Hcx : Rabs (c - x) <= Rabs h).
  { unfold Rmin, Rmax in Hin. destruct (Rle_dec x (x + h));
      unfold Rabs; destruct (Rcase_abs (c - x)); destruct (Rcase_abs h); lra. }
  pose proof (f2_bound c') as Hb.
  pose proof (Rabs_pos h). pose proof (Rabs_pos (c - x)).
  pose proof (Rabs_pos (f2 c')).
  replace (h * h) with (Rabs h * Rabs h)
    by (unfold Rabs; destruct (Rcase_abs h); ring).
  assert (Rabs (f2 c') * Rabs (c - x) <= M * Rabs h).
  { apply Rmult_le_compat; assumption. }
  nra.
Qed.

End SecondOrder.

(** Integrals: extensionality, sign, bound, linearity. *)

Lemma integral_ext (f g : R -> R) (a b : R)
    (pr1 : Riemann_integrable f a b) (pr2 : Riemann_integrable g a b) :
  a <= b -> (forall s, f s = g s) -> RiemannInt pr1 = RiemannInt pr2.
Proof. intros Hab H. apply RiemannInt_P18; [exact Hab | intros; apply H]. Qed.

Lemma integral_nonneg (f : R -> R) (a b : R) (pr : Riemann_integrable f a b) :
  a <= b -> (forall s, 0 <= f s) -> 0 <= RiemannInt pr.
Proof.
  intros Hab H.
  rewrite <- (Rmult_0_l (b - a)), <- (RiemannInt_P15 (RiemannInt_P14 a b 0)).
  apply RiemannInt_P19; [exact Hab | intros; apply H].
Qed.

Lemma integral_abs_bound (f : R -> R) (a b M : R)
    (pr : Riemann_integrable f a b) :
  a <= b -> (forall s, Rabs (f s) <= M) -> Rabs (RiemannInt pr) <= M * (b - a).
Proof.
  intros Hab H.
  apply Rle_trans with (RiemannInt (RiemannInt_P16 pr)).
  - apply RiemannInt_P17, Hab.
  - rewrite <- (RiemannInt_P15 (RiemannInt_P14 a b M)).
    apply RiemannInt_P19; [exact Hab | intros; apply H].
Qed.

Lemma integral_scal (f : R -> R) (a b c : R)
    (pr : Riemann_integrable f a b)
    (pr' : Riemann_integrable (fun s => c * f s) a b) :
  a <= b -> RiemannInt pr' = c * RiemannInt pr.
Proof.
  intro Hab.
  pose (pr0 := RiemannInt_P14 a b 0).
  rewrite (integral_ext _ (fun s => fct_cte 0 s + c * f s) a b pr'
             (RiemannInt_P10 c pr0 pr) Hab)
    by (intro; unfold fct_cte; ring).
  rewrite (RiemannInt_P13 pr0 pr), RiemannInt_P15. ring.
Qed.

Lemma integral_tangent (f1 f2 f3 : R -> R) (a b c : R)
    (pr1 : Riemann_integrable f1 a b) (pr2 : Riemann_integrable f2 a b)
    (pr3 : Riemann_integrable f3 a b)
    (pr : Riemann_integrable (fun s => f1 s - f2 s - c * f3 s) a b) :
  a <= b ->
  RiemannInt pr = RiemannInt pr1 - RiemannInt pr2 - c * RiemannInt pr3.
Proof.
  intro Hab.
  pose (pr12 := RiemannInt_P10 (-1) pr1 pr2).
  rewrite (integral_ext _ (fun s => (f1 s + -1 * f2 s) + - c * f3 s) a b
             pr (RiemannInt_P10 (- c) pr12 pr3) Hab)
    by (intro; ring).
  rewrite (RiemannInt_P13 pr12 pr3). unfold pr12.
  rewrite (RiemannInt_P13 pr1 pr2). ring.
Qed.

(** ** The normal distribution function *)

Lemma gauss_density_pos t : 0 < gauss_density t.
Proof. apply exp_pos. Qed.

Lemma gauss_area_0 : gauss_area 0 = 0.
Proof. apply RiemannInt_P9. Qed.

Lemma gauss_area_deriv x : derivable_pt_lim gauss_area x (gauss_density x).
Proof. apply integral_deriv. Qed.

Lemma gauss_area_increasing x y : x <= y -> gauss_area x <= gauss_area y.
Proof.
  assert (pr : derivable gauss_area)
    by (intro z; exists (gauss_density z); apply gauss_area_deriv).
  assert (Hi : increasing gauss_area).
  { apply nonneg_derivative_1 with (pr := pr). intro z.
    rewrite (derive_pt_eq_0 _ _ _ _ (gauss_area_deriv z)).
    left. apply gauss_density_pos. }
  apply Hi.
Qed.

(** The area under the density is bounded by the Gaussian integral.
    With [kernel x s = exp (- x^2 (1 + s^2) / 2) / (1 + s^2)], the sum of
    the square of [gauss_area x] and of twice the integral of [kernel x]
    over the unit interval does not depend on [x]; at 0 it is [PI / 2]. *)

(** The exponential of the kernel, and the kernel with its first two
    derivatives in [x]. *)
Definition kernel_exp (x s : R) : R := exp (- (1 + s * s) / 2 * (x * x)).

Definition kernel (x s : R) : R := kernel_exp x s * / (1 + s * s).
Definition kernel_x (x s : R) : R := - x * kernel_exp x s.
Definition kernel_xx (x s : R) : R :=
  (x * x * (1 + s * s) - 1) * kernel_exp x s.

Lemma kernel_exp_split x s :
  kernel_exp x s = gauss_density x * gauss_density (x * s).
Proof.
  unfold kernel_exp, gauss_density. rewrite <- exp_plus. f_equal. field.
Qed.

Lemma kernel_exp_deriv s x :
  derivable_pt_lim (fun y => kernel_exp y s) x
    (kernel_exp x s * (- (1 + s * s) * x)).
Proof.
  unfold kernel_exp.
  apply (derivable_pt_lim_comp (fun y => - (1 + s * s) / 2 * (y * y)) exp).
  - replace (- (1 + s * s) * x) with (- (1 + s * s) / 2 * (1 * x + x * 1))
      by field.
    apply (derivable_pt_lim_scal (fun y => y * y)).
    apply (derivable_pt_lim_mult id id); apply derivable_pt_lim_id.
  - apply derivable_pt_lim_exp.
Qed.

Lemma kernel_deriv s x :
  derivable_pt_lim (fun y => kernel y s) x (kernel_x x s).
Proof.
  unfold kernel, kernel_x.
  replace (- x * kernel_exp x s)
    with (kernel_exp x s * (- (1 + s * s) * x) * / (1 + s * s))
    by (field; nra).
  apply (derivable_pt_lim_scal_right (fun y => kernel_exp y s)).
  apply kernel_exp_deriv.
Qed.

Lemma kernel_x_deriv s x :
  derivable_pt_lim (fun y => kernel_x y s) x (kernel_xx x s).
Proof.
  unfold kernel_x, kernel_xx.
  replace ((x * x * (1 + s * s) - 1) * kernel_exp x s)
    with (- 1 * kernel_exp x s
          + - x * (kernel_exp x s * (- (1 + s * s) * x))) by ring.
  apply (derivable_pt_lim_mult (fun y => - y) (fun y => kernel_exp y s)).
  - apply (derivable_pt_lim_opp id), derivable_pt_lim_id.
  - apply kernel_exp_deriv.
Qed.

Lemma kernel_xx_bound s x : Rabs (kernel_xx x s) <= 1.
Proof.
  unfold kernel_xx, kernel_exp.
  set (u := x * x * (1 + s * s)).
  assert (Hu : 0 <= u) by (unfold u; nra).
  replace (- (1 + s * s) / 2 * (x * x)) with (- (u / 2)) by (unfold u; field).
  rewrite exp_Ropp.
  assert (He : (1 + u / 4) * (1 + u / 4) <= exp (u / 2)).
  { replace (u / 2) with (u / 4 + u / 4) by field. rewrite exp_plus.
    pose proof (exp_ineq1_le (u / 4)). nra. }
  assert (Hp : 0 < exp (u / 2)) by apply exp_pos.
  rewrite Rabs_mult, (Rabs_pos_eq (/ _))
    by (left; apply Rinv_0_lt_compat, Hp).
  apply Rmult_le_reg_r with (exp (u / 2)); [exact Hp |].
  rewrite Rmult_assoc, Rinv_l, Rmult_1_r, Rmult_1_l by lra.
  unfold Rabs. destruct (Rcase_abs (u - 1)); nra.
Qed.

Lemma kernel_continuity x : continuity (kernel x).
Proof.
  unfold kernel, kernel_exp. intro s. reg. nra.
Qed.

Lemma kernel_x_continuity x : continuity (kernel_x x).
Proof. unfold kernel_x, kernel_exp. reg. Qed.

(** The integrals over the unit interval of the kernel and of its
    derivative in [x]. *)
Definition kernel_integral (x : R) : R :=
  RiemannInt (continuous_integrable (kernel x) (kernel_continuity x) 0 1).

Definition kernel_x_integral (x : R) : R :=
  RiemannInt (continuous_integrable (kernel_x x) (kernel_x_continuity x) 0 1).

Lemma kernel_integral_tangent x h :
  Rabs (kernel_integral (x + h) - kernel_integral x
        - h * kernel_x_integral x) <= h * h.
Proof.
  assert (H01 : 0 <= 1) by lra.
  assert (pr : Riemann_integrable
                 (fun s => kernel (x + h) s - kernel x s - h * kernel_x x s)
                 0 1).
  { apply continuity_implies_RiemannInt; [lra |]. intros s _.
    pose proof (kernel_continuity (x + h) s).
    pose proof (kernel_continuity x s).
    pose proof (kernel_x_continuity x s).
    reg. }
  unfold kernel_integral, kernel_x_integral.
  rewrite <- (integral_tangent _ _ _ 0 1 h _ _ _ pr H01).
  replace (h * h) with (1 * (h * h) * (1 - 0)) by ring.
  apply integral_abs_bound; [lra |].
  intro s.
  apply (tangent_bound (fun y => kernel y s) (fun y => kernel_x y s)
           (fun y => kernel_xx y s) 1).
  - apply kernel_deriv.
  - apply kernel_x_deriv.
  - apply kernel_xx_bound.
Qed.

Lemma kernel_integral_deriv x :
  derivable_pt_lim kernel_integral x (kernel_x_integral x).
Proof.
  intros eps Heps. exists (mkposreal eps Heps). intros h Hh Hlt. simpl in Hlt.
  replace ((kernel_integral (x + h) - kernel_integral x) / h
           - kernel_x_integral x)
    with ((kernel_integral (x + h) - kernel_integral x
           - h * kernel_x_integral x) / h) by (field; exact Hh).
  unfold Rdiv. rewrite Rabs_mult, Rabs_inv.
  pose proof (kernel_integral_tangent x h) as Ht.
  assert (Hp : 0 < Rabs h) by (apply Rabs_pos_lt, Hh).
  apply Rle_lt_trans with (Rabs h); [| exact Hlt].
  apply Rmult_le_reg_r with (Rabs h); [exact Hp |].
  rewrite Rmult_assoc, Rinv_l, Rmult_1_r by lra.
  replace (Rabs h * Rabs h) with (h * h)
    by (unfold Rabs; destruct (Rcase_abs h); ring).
  exact Ht.
Qed.

Lemma scaled_density_continuity x :
  continuity (fun s => x * gauss_density (x * s)).
Proof. unfold gauss_density. reg. Qed.

Lemma scaled_area_deriv x s :
  derivable_pt_lim (fun t => gauss_area (x * t)) s (x * gauss_density (x * s)).
Proof.
  replace (x * gauss_density (x * s)) with (gauss_density (x * s) * (x * 1))
    by ring.
  apply (derivable_pt_lim_comp (fun t => x * t) gauss_area).
  - apply (derivable_pt_lim_scal id), derivable_pt_lim_id.
  - apply gauss_area_deriv.
Qed.

Lemma kernel_x_integral_value x :
  kernel_x_integral x = - (gauss_density x * gauss_area x).
Proof.
  assert (H01 : 0 <= 1) by lra.
  pose (pr := continuous_integrable _ (scaled_density_continuity x) 0 1).
  assert (Hq : RiemannInt pr = gauss_area x).
  { rewrite (integral_of_derivative _ (scaled_density_continuity x)
               (fun t => gauss_area (x * t)) 0 1 pr (scaled_area_deriv x)).
    rewrite Rmult_1_r, Rmult_0_r, gauss_area_0. ring. }
  unfold kernel_x_integral.
  assert (pr' : Riemann_integrable
                  (fun s => - gauss_density x * (x * gauss_density (x * s)))
                  0 1).
  { apply continuity_implies_RiemannInt; [lra |]. intros s _.
    unfold gauss_density. reg. }
  rewrite (integral_ext _ _ 0 1 _ pr' H01)
    by (intro s; unfold kernel_x; rewrite kernel_exp_split; ring).
  rewrite (integral_scal _ 0 1 _ pr pr' H01), Hq. ring.
Qed.

Lemma kernel_integral_0 : kernel_integral 0 = PI / 4.
Proof.
  assert (H01 : 0 <= 1) by lra.
  assert (Hc : continuity (fun s => / (1 + s ^ 2))).
  { intro s. reg. nra. }
  unfold kernel_integral.
  rewrite (integral_ext _ _ 0 1 _ (continuous_integrable _ Hc 0 1) H01).
  - rewrite (integral_of_derivative _ Hc atan 0 1 _ derivable_pt_lim_atan).
    rewrite atan_1, atan_0. ring.
  - intro s. unfold kernel, kernel_exp.
    replace (- (1 + s * s) / 2 * (0 * 0)) with 0 by field.
    rewrite exp_0. simpl. rewrite Rmult_1_r. ring.
Qed.

Lemma kernel_integral_nonneg x : 0 <= kernel_integral x.
Proof.
  unfold kernel_integral. apply integral_nonneg; [lra |].
  intro s. unfold kernel, kernel_exp.
  apply Rmult_le_pos; [left; apply exp_pos |].
  left. apply Rinv_0_lt_compat. nra.
Qed.

(** The square of the area plus twice [kernel_integral] is constant. *)
Lemma gauss_area_square x :
  gauss_area x * gauss_area x + 2 * kernel_integral x = PI / 2.
Proof.
  set (G := fun y => gauss_area y * gauss_area y + 2 * kernel_integral y).
  assert (dG : forall y, derivable_pt_lim G y 0).
  { intro y. unfold G.
    replace 0 with (gauss_density y * gauss_area y
                    + gauss_area y * gauss_density y
                    + 2 * kernel_x_integral y)
      by (rewrite kernel_x_integral_value; ring).
    apply derivable_pt_lim_plus.
    - apply (derivable_pt_lim_mult gauss_area gauss_area);
        apply gauss_area_deriv.
    - apply (derivable_pt_lim_scal kernel_integral).
      apply kernel_integral_deriv. }
  assert (pr : derivable G) by (intro y; exists 0; apply dG).
  assert (HC : constant G).
  { apply null_derivative_1 with (pr := pr).
    intro y. apply derive_pt_eq_0, dG. }
  specialize (HC x 0). unfold G in HC.
  rewrite gauss_area_0, kernel_integral_0 in HC. lra.
Qed.

Lemma gauss_area_bound x :
  - (sqrt (2 * PI) / 2) <= gauss_area x <= sqrt (2 * PI) / 2.
Proof.
  pose proof (gauss_area_square x) as Hs.
  pose proof (kernel_integral_nonneg x) as HJ.
  pose proof PI_RGT_0 as Hpi.
  assert (Hq : 0 < sqrt (2 * PI)) by (apply sqrt_lt_R0; lra).
  assert (Hsq : sqrt (2 * PI) * sqrt (2 * PI) = 2 * PI)
    by (apply sqrt_sqrt; lra).
  split; nra.
Qed.

Lemma sqrt_2PI_pos : 0 < sqrt (2 * PI).
Proof. apply sqrt_lt_R0. pose proof PI_RGT_0. lra. Qed.

Lemma Phi_0 : Phi 0 = 1 / 2.
Proof.
  unfold Phi. rewrite gauss_area_0. unfold Rdiv at 2. rewrite Rmult_0_l. ring.
Qed.

Lemma Phi_increasing x y : x <= y -> Phi x <= Phi y.
Proof.
  intro H. unfold Phi. apply Rplus_le_compat_l, Rmult_le_compat_r.
  - left. apply Rinv_0_lt_compat, sqrt_2PI_pos.
  - apply gauss_area_increasing, H.
Qed.

Lemma Phi_range x : 0 <= Phi x <= 1.
Proof.
  unfold Phi. pose proof sqrt_2PI_pos as Hq.
  pose proof (gauss_area_bound x) as Hb.
  assert (Hd : - (1 / 2) <= gauss_area x / sqrt (2 * PI) <= 1 / 2).
  { split.
    - apply Rmult_le_reg_r with (sqrt (2 * PI)); [exact Hq |].
      unfold Rdiv at 2. rewrite Rmult_assoc, Rinv_l by lra. lra.
    - apply Rmult_le_reg_r with (sqrt (2 * PI)); [exact Hq |].
      unfold Rdiv at 1. rewrite Rmult_assoc, Rinv_l by lra. lra. }
  lra.
Qed.

(** ** The probability of profit *)

Lemma std_dev_valid sigma d :
  0 < sigma -> (0 < d)%Z ->
  std_dev (Fin sigma) (days_over_365 d) = Fin (sigma * sqrt (IZR d / 365)) /\
  0 < sigma * sqrt (IZR d / 365).
Proof.
  intros Hs Hd. apply IZR_lt in Hd.
  assert (Ht : 0 < IZR d / 365) by (apply Rdiv_lt_0_compat; lra).
  split.
  - unfold std_dev, days_over_365. rewrite sqrt_Fin by lra. reflexivity.
  - apply Rmult_lt_0_compat; [assumption | apply sqrt_lt_R0, Ht].
Qed.

Lemma standardized_valid S K sigma d :
  0 < S -> 0 < K -> (0 < d)%Z -> 0 < sigma ->
  np.div (np.log (np.div (Fin K) (Fin S)))
    (std_dev (Fin sigma) (days_over_365 d)) = Fin (threshold S K sigma d).
Proof.
  intros HS HK Hd Hs.
  destruct (std_dev_valid sigma d Hs Hd) as [-> Hpos].
  rewrite div_Fin by lra.
  rewrite log_Fin by (apply Rdiv_lt_0_compat; assumption).
  rewrite div_Fin by lra. reflexivity.
Qed.

Lemma prob_profit_call sp cp sd :
  prob_profit "call" sp cp sd =
  np.sub (Fin 1) (norm.cdf (np.div (np.log (np.div sp cp)) sd)).
Proof. reflexivity. Qed.

Lemma prob_profit_not_call ot sp cp sd :
  ot <> "call"%string ->
  prob_profit ot sp cp sd = norm.cdf (np.div (np.log (np.div sp cp)) sd).
Proof.
  intro H. unfold prob_profit.
  destruct (String.eqb_spec ot "call"); [contradiction | reflexivity].
Qed.

Lemma prob_profit_call_valid S K sigma d :
  0 < S -> 0 < K -> (0 < d)%Z -> 0 < sigma ->
  prob_profit "call" (Fin K) (Fin S) (std_dev (Fin sigma) (days_over_365 d))
  = Fin (1 - Phi (threshold S K sigma d)).
Proof.
  intros. rewrite prob_profit_call, standardized_valid by assumption.
  reflexivity.
Qed.

Lemma prob_profit_put_valid S K sigma d :
  0 < S -> 0 < K -> (0 < d)%Z -> 0 < sigma ->
  prob_profit "put" (Fin K) (Fin S) (std_dev (Fin sigma) (days_over_365 d))
  = Fin (Phi (threshold S K sigma d)).
Proof.
  intros. rewrite prob_profit_not_call by discriminate.
  rewrite standardized_valid by assumption. reflexivity.
Qed.

(** The days that convert to a float, and those that do not. *)

Lemma time_to_expiry_in_range d :
  (Z.abs d < float_limit)%Z -> time_to_expiry d = inr (days_over_365 d).
Proof.
  intro H. unfold time_to_expiry. apply Z.ltb_lt in H. rewrite H.
  reflexivity.
Qed.

Lemma time_to_expiry_overflow d :
  (float_limit <= Z.abs d)%Z -> time_to_expiry d = inl OverflowError.
Proof.
  intro H. unfold time_to_expiry. apply Z.ltb_ge in H. rewrite H.
  reflexivity.
Qed.

Lemma probability_metrics_in_range ot sp cp vol d :
  (Z.abs d < float_limit)%Z ->
  probability_metrics ot sp cp vol d
  = inr (prob_profit ot sp cp (std_dev vol (days_over_365 d))).
Proof.
  intro H. unfold probability_metrics.
  rewrite (time_to_expiry_in_range d H). reflexivity.
Qed.

Lemma probability_metrics_overflow ot sp cp vol d :
  (float_limit <= Z.abs d)%Z ->
  probability_metrics ot sp cp vol d = inl OverflowError.
Proof.
  intro H. unfold probability_metrics.
  rewrite (time_to_expiry_overflow d H). reflexivity.
Qed.

Lemma positive_in_range d :
  (0 < d < float_limit)%Z -> (Z.abs d < float_limit)%Z.
Proof. intros [H1 H2]. rewrite Z.abs_eq by lia. exact H2. Qed.

Lemma thirty_in_range : (0 < 30 < float_limit)%Z.
Proof. split; [lia | apply Z.ltb_lt; vm_compute; reflexivity]. Qed.

Lemma thirty_abs_in_range : (Z.abs 30 < float_limit)%Z.
Proof. apply positive_in_range, thirty_in_range. Qed.

Lemma ten_pow_400_overflows : (float_limit <= Z.abs (10 ^ 400))%Z.
Proof. apply Z.leb_le. vm_compute. reflexivity. Qed.

Lemma two_pow_1024_overflows : (float_limit <= Z.abs (2 ^ 1024))%Z.
Proof. apply Z.leb_le. vm_compute. reflexivity. Qed.

Lemma threshold_increasing S sigma d K1 K2 :
  0 < S -> (0 < d)%Z -> 0 < sigma -> 0 < K1 -> K1 <= K2 ->
  threshold S K1 sigma d <= threshold S K2 sigma d.
Proof.
  intros HS Hd Hs HK1 HK.
  destruct (std_dev_valid sigma d Hs Hd) as [_ Hpos].
  unfold threshold. apply Rmult_le_compat_r.
  - left. apply Rinv_0_lt_compat, Hpos.
  - destruct HK as [HK | ->]; [left | right; reflexivity].
    apply ln_increasing.
    + apply Rdiv_lt_0_compat; assumption.
    + apply Rmult_lt_compat_r; [apply Rinv_0_lt_compat, HS | exact HK].
Qed.

(** C1, as the code has it.  On valid inputs (positive current price,
    strike and volatility, and positive days to expiry that convert to a
    float) the probability of profit is
    [1 - Phi (log (strike / current) / (volatility * sqrt (days / 365)))]
    for a call and [Phi] of the same threshold for a put. *)
Theorem prob_profit_formula (S K sigma : R) (d : Z) :
  0 < S -> 0 < K -> (0 < d < float_limit)%Z -> 0 < sigma ->
  probability_metrics "call" (Fin K) (Fin S) (Fin sigma) d
    = inr (Fin (1 - Phi (ln (K / S) / (sigma * sqrt (IZR d / 365))))) /\
  probability_metrics "put" (Fin K) (Fin S) (Fin sigma) d
    = inr (Fin (Phi (ln (K / S) / (sigma * sqrt (IZR d / 365))))).
Proof.
  intros HS HK Hd Hs.
  rewrite !probability_metrics_in_range by (apply positive_in_range, Hd).
  destruct Hd as [Hd _]. split; f_equal.
  - apply prob_profit_call_valid; assumption.
  - apply prob_profit_put_valid; assumption.
Qed.

Lemma prob_profit_formula_witness :
  probability_metrics "call" (Fin 170) (Fin 150) (Fin (1 / 4)) 30
    = inr (Fin (1 - Phi (ln (170 / 150) / (1 / 4 * sqrt (IZR 30 / 365)))))
  /\
  probability_metrics "put" (Fin 170) (Fin 150) (Fin (1 / 4)) 30
    = inr (Fin (Phi (ln (170 / 150) / (1 / 4 * sqrt (IZR 30 / 365))))).
Proof.
  apply (prob_profit_formula 150 170 (1 / 4) 30); try lra.
  apply thirty_in_range.
Defined.

(** C1 as stated fails for days to expiry beyond the range of the
    floats: with [10^400] days the division [days_to_expiry / 365.0]
    raises [OverflowError] and no probability is returned. *)
Lemma prob_profit_formula_overflows :
  probability_metrics "call" (Fin 170) (Fin 150) (Fin (1 / 4)) (10 ^ 400)
  = inl OverflowError /\
  probability_metrics "call" (Fin 170) (Fin 150) (Fin (1 / 4)) (10 ^ 400)
  <> inr (Fin (1 - Phi (ln (170 / 150)
                        / (1 / 4 * sqrt (IZR (10 ^ 400) / 365))))).
Proof.
  rewrite (probability_metrics_overflow _ _ _ _ _ ten_pow_400_overflows).
  split; [reflexivity | discriminate].
Qed.

(** C5, as the code has it.  On valid inputs (the days to expiry
    converting to a float), for a call or a put, the probability of
    profit is a real number of the closed interval from 0 to 1. *)
Theorem prob_profit_in_unit_interval (S K sigma : R) (d : Z) (ot : string) :
  0 < S -> 0 < K -> (0 < d < float_limit)%Z -> 0 < sigma ->
  ot = "call"%string \/ ot = "put"%string ->
  exists p : R,
    probability_metrics ot (Fin K) (Fin S) (Fin sigma) d = inr (Fin p) /\
    0 <= p <= 1.
Proof.
  intros HS HK Hd Hs Hot.
  rewrite probability_metrics_in_range by (apply positive_in_range, Hd).
  destruct Hd as [Hd _]. destruct Hot as [-> | ->].
  - exists (1 - Phi (threshold S K sigma d)). split.
    + f_equal. apply prob_profit_call_valid; assumption.
    + pose proof (Phi_range (threshold S K sigma d)). lra.
  - exists (Phi (threshold S K sigma d)). split.
    + f_equal. apply prob_profit_put_valid; assumption.
    + apply Phi_range.
Qed.

Lemma prob_profit_in_unit_interval_witness :
  exists p : R,
    probability_metrics "put" (Fin 170) (Fin 150) (Fin (1 / 4)) 30
    = inr (Fin p) /\ 0 <= p <= 1.
Proof.
  apply (prob_profit_in_unit_interval 150 170 (1 / 4) 30 "put");
    try lra; [apply thirty_in_range | right; reflexivity].
Defined.

(** C5 as stated fails for days to expiry beyond the range of the
    floats: with [2^1024] days no probability is returned, in the unit
    interval or elsewhere; [OverflowError] is raised. *)
Lemma no_probability_beyond_float_range :
  ~ (exists p : R,
       probability_metrics "put" (Fin 170) (Fin 150) (Fin (1 / 4))
         (2 ^ 1024) = inr (Fin p) /\ 0 <= p <= 1).
Proof.
  rewrite (probability_metrics_overflow _ _ _ _ _ two_pow_1024_overflows).
  intros (p & H & _). discriminate H.
Qed.

(** C6, as the code has it.  With the current price, the volatility and
    the days to expiry fixed at valid values (the days converting to a
    float), the probability of profit does not increase with the strike
    for a call and does not decrease with the strike for a put. *)
Theorem prob_profit_monotone_in_strike (S sigma : R) (d : Z) (K1 K2 : R) :
  0 < S -> (0 < d < float_limit)%Z -> 0 < sigma -> 0 < K1 -> K1 <= K2 ->
  exists c1 c2 p1 p2 : np_float,
    probability_metrics "call" (Fin K1) (Fin S) (Fin sigma) d = inr c1 /\
    probability_metrics "call" (Fin K2) (Fin S) (Fin sigma) d = inr c2 /\
    probability_metrics "put" (Fin K1) (Fin S) (Fin sigma) d = inr p1 /\
    probability_metrics "put" (Fin K2) (Fin S) (Fin sigma) d = inr p2 /\
    np.le c2 c1 /\ np.le p1 p2.
Proof.
  intros HS Hd Hs HK1 HK.
  rewrite !probability_metrics_in_range by (apply positive_in_range, Hd).
  destruct Hd as [Hd _].
  assert (HK2 : 0 < K2) by lra.
  pose proof (threshold_increasing S sigma d K1 K2 HS Hd Hs HK1 HK) as Ht.
  apply Phi_increasing in Ht.
  rewrite !prob_profit_call_valid, !prob_profit_put_valid by assumption.
  do 4 eexists. repeat (split; [reflexivity |]).
  unfold np.le. rewrite !leb_Fin. lra.
Qed.

Lemma prob_profit_monotone_in_strike_witness :
  exists c1 c2 p1 p2 : np_float,
    probability_metrics "call" (Fin 160) (Fin 150) (Fin (1 / 4)) 30
    = inr c1 /\
    probability_metrics "call" (Fin 170) (Fin 150) (Fin (1 / 4)) 30
    = inr c2 /\
    probability_metrics "put" (Fin 160) (Fin 150) (Fin (1 / 4)) 30
    = inr p1 /\
    probability_metrics "put" (Fin 170) (Fin 150) (Fin (1 / 4)) 30
    = inr p2 /\
    np.le c2 c1 /\ np.le p1 p2.
Proof.
  apply (prob_profit_monotone_in_strike 150 (1 / 4) 30 160 170);
    try lra. apply thirty_in_range.
Defined.

(** C6 as stated fails for days to expiry beyond the range of the
    floats: with [10^400] days neither strike has a probability to
    compare; both computations raise [OverflowError]. *)
Lemma no_strike_comparison_beyond_float_range :
  probability_metrics "call" (Fin 160) (Fin 150) (Fin (1 / 4)) (10 ^ 400)
  = inl OverflowError /\
  probability_metrics "call" (Fin 170) (Fin 150) (Fin (1 / 4)) (10 ^ 400)
  = inl OverflowError /\
  ~ (exists c1 c2 : np_float,
       probability_metrics "call" (Fin 160) (Fin 150) (Fin (1 / 4))
         (10 ^ 400) = inr c1 /\
       probability_metrics "call" (Fin 170) (Fin 150) (Fin (1 / 4))
         (10 ^ 400) = inr c2 /\
       np.le c2 c1).
Proof.
  rewrite !(probability_metrics_overflow _ _ _ _ _ ten_pow_400_overflows).
  repeat split. intros (c1 & c2 & H & _). discriminate H.
Qed.

(** C7, as the code has it.  An at-the-money call (strike equal to the
    current price) with positive volatility and positive days to expiry
    that convert to a float has probability of profit one half. *)
Theorem prob_profit_at_the_money (S sigma : R) (d : Z) :
  0 < S -> (0 < d < float_limit)%Z -> 0 < sigma ->
  probability_metrics "call" (Fin S) (Fin S) (Fin sigma) d
  = inr (Fin (1 / 2)).
Proof.
  intros HS Hd Hs.
  rewrite probability_metrics_in_range by (apply positive_in_range, Hd).
  destruct Hd as [Hd _]. f_equal.
  rewrite prob_profit_call_valid by assumption.
  unfold threshold. replace (S / S) with 1 by (field; lra).
  rewrite ln_1. unfold Rdiv at 1. rewrite Rmult_0_l, Phi_0.
  f_equal. lra.
Qed.

Lemma prob_profit_at_the_money_witness :
  probability_metrics "call" (Fin 100) (Fin 100) (Fin (1 / 4)) 30
  = inr (Fin (1 / 2)).
Proof.
  apply (prob_profit_at_the_money 100 (1 / 4) 30); try lra.
  apply thirty_in_range.
Defined.

(** C7 as stated fails for days to expiry beyond the range of the
    floats: the at-the-money call with [10^400] days raises
    [OverflowError] and has no probability, one half or other. *)
Lemma at_the_money_overflows :
  probability_metrics "call" (Fin 100) (Fin 100) (Fin (1 / 4)) (10 ^ 400)
  <> inr (Fin (1 / 2)).
Proof.
  rewrite (probability_metrics_overflow _ _ _ _ _ ten_pow_400_overflows).
  discriminate.
Qed.

(** The scenario of the specification: current price 150, strike 170,
    30 days, volatility 0.25.  The call is out of the money and its
    probability of profit is at most one half. *)
Example out_of_the_money_call :
  exists p : R,
    probability_metrics "call" (Fin 170) (Fin 150) (Fin (1 / 4)) 30
    = inr (Fin p) /\ p <= 1 / 2.
Proof.
  exists (1 - Phi (threshold 150 170 (1 / 4) 30)). split.
  - rewrite probability_metrics_in_range
      by (apply positive_in_range, thirty_in_range).
    f_equal. apply prob_profit_call_valid; try lra; lia.
  - assert (H0 : threshold 150 150 (1 / 4) 30 = 0).
    { unfold threshold. replace (150 / 150) with 1 by lra.
      rewrite ln_1. unfold Rdiv. apply Rmult_0_l. }
    pose proof (threshold_increasing 150 (1 / 4) 30 150 170) as H.
    rewrite H0 in H. apply Phi_increasing in H; try lra; try lia.
    rewrite Phi_0 in H. lra.
Qed.

(** ** The statistics of the daily returns *)

Lemma dropna_Fin (l : list R) : Pandas.dropna (map Fin l) = map Fin l.
Proof.
  unfold Pandas.dropna. induction l as [| x l IH]; simpl; [| rewrite IH];
    reflexivity.
Qed.

Lemma pct_from_Fin (l : list R) : forall prev,
  0 < prev -> Forall (fun p => 0 < p) l ->
  Pandas.pct_from (Fin prev) (map Fin l) = map Fin (Rpct_from prev l).
Proof.
  induction l as [| x l IH]; intros prev Hp Hl; [reflexivity |].
  inversion Hl; subst. cbn [map Pandas.pct_from Rpct_from].
  rewrite div_Fin by lra. rewrite IH by assumption. reflexivity.
Qed.

Lemma spec_return_series_cons (x y : R) (l : list R) :
  spec_return_series (x :: y :: l)
  = (y / x - 1) :: spec_return_series (y :: l).
Proof.
  unfold spec_return_series. simpl length.
  replace (S (S (length l)) - 1)%nat with (S (length l)) by lia.
  replace (S (length l) - 1)%nat with (length l) by lia.
  simpl seq. simpl map at 1. f_equal.
  rewrite <- seq_shift, map_map. apply map_ext_in.
  intros i Hi. apply in_seq in Hi.
  destruct i as [| i]; [lia |].
  replace (S (S i) - 1)%nat with (S i) by lia.
  replace (S i - 1)%nat with i by lia.
  reflexivity.
Qed.

Lemma Rpct_from_spec (l : list R) : forall x,
  Rpct_from x l = spec_return_series (x :: l).
Proof.
  induction l as [| y l IH]; intro x; [reflexivity |].
  rewrite spec_return_series_cons. simpl. rewrite IH. reflexivity.
Qed.

Lemma daily_returns_spec (price : list R) :
  Forall (fun p => 0 < p) price ->
  daily_returns (map Fin price) = map Fin (spec_return_series price).
Proof.
  intro H. unfold daily_returns. destruct price as [| x l]; [reflexivity |].
  inversion H; subst. simpl.
  rewrite pct_from_Fin by assumption.
  unfold Pandas.dropna. simpl.
  fold (Pandas.dropna (map Fin (Rpct_from x l))).
  rewrite dropna_Fin, Rpct_from_spec. reflexivity.
Qed.

Lemma spec_return_series_length (price : list R) :
  length (spec_return_series price) = (length price - 1)%nat.
Proof.
  unfold spec_return_series. rewrite length_map, length_seq. reflexivity.
Qed.

Lemma fold_add_Fin (l : list R) : forall a,
  fold_left np.add (map Fin l) (Fin a) = Fin (a + Rsum l).
Proof.
  induction l as [| x l IH]; intro a; simpl.
  - f_equal. lra.
  - rewrite IH. f_equal. lra.
Qed.

Lemma sum_Fin (l : list R) : Pandas.sum (map Fin l) = Fin (Rsum l).
Proof. unfold Pandas.sum. rewrite fold_add_Fin. f_equal. lra. Qed.

Lemma INR_length_nonzero {A} (l : list A) : l <> [] -> INR (length l) <> 0.
Proof.
  intro H. destruct l; [contradiction |]. apply not_0_INR. discriminate.
Qed.

Lemma mean_Fin (l : list R) :
  l <> [] -> Pandas.mean (map Fin l) = Fin (spec_mean l).
Proof.
  intro H. unfold Pandas.mean. rewrite dropna_Fin, sum_Fin, length_map.
  rewrite div_Fin by (apply INR_length_nonzero, H). reflexivity.
Qed.

Lemma abs_Fin (l : list R) : Pandas.abs (map Fin l) = map Fin (map Rabs l).
Proof. unfold Pandas.abs. rewrite !map_map. reflexivity. Qed.

Lemma Rsum_squares_nonneg (f : R -> R) (l : list R) :
  0 <= Rsum (map (fun r => f r ^ 2) l).
Proof.
  unfold Rsum. induction l as [| x l IH]; cbn [map fold_right]; [lra |].
  pose proof (pow2_ge_0 (f x)). lra.
Qed.

Lemma std_Fin (l : list R) :
  (2 <= length l)%nat -> Pandas.std (map Fin l) = Fin (spec_sample_stdev l).
Proof.
  intro H. unfold Pandas.std. rewrite dropna_Fin, length_map.
  destruct (Nat.leb_spec (length l) 1) as [Hle | _]; [lia |].
  assert (Hn : INR (length l) <> 0) by (apply not_0_INR; lia).
  assert (Hn1 : 0 < INR (length l - 1)) by (apply lt_0_INR; lia).
  rewrite sum_Fin, div_Fin by assumption.
  rewrite map_map.
  rewrite (map_ext _ (fun x => Fin ((x - spec_mean l) ^ 2))).
  2:{ intro x. unfold np.sq, np.sub. simpl. f_equal.
      unfold spec_mean. ring. }
  rewrite <- (map_map (fun x => (x - spec_mean l) ^ 2) Fin).
  rewrite sum_Fin, div_Fin by lra.
  rewrite sqrt_Fin; [reflexivity |].
  apply Rmult_le_pos; [apply Rsum_squares_nonneg |].
  left. apply Rinv_0_lt_compat, Hn1.
Qed.

Lemma std_short (s : Pandas.Series) :
  (length (Pandas.dropna s) <= 1)%nat -> Pandas.std s = NaN.
Proof.
  intro H. unfold Pandas.std.
  destruct (Nat.leb_spec (length (Pandas.dropna s)) 1); [reflexivity | lia].
Qed.

Lemma maximum_Fin a b : np.maximum (Fin a) (Fin b) = Fin (Rmax a b).
Proof.
  unfold np.maximum, np.leb, Rmax. destruct (Rle_dec a b); reflexivity.
Qed.

Lemma minimum_Fin a b : np.minimum (Fin a) (Fin b) = Fin (Rmin a b).
Proof.
  unfold np.minimum, np.leb, Rmin. destruct (Rle_dec a b); reflexivity.
Qed.

Lemma fold_maximum_Fin (l : list R) : forall a,
  fold_left np.maximum (map Fin l) (Fin a) = Fin (MaxRlist (a :: l)).
Proof.
  induction l as [| b l IH]; intro a; [reflexivity |].
  cbn [map fold_left]. rewrite maximum_Fin, IH. f_equal.
  destruct l as [| c l]; [reflexivity |].
  change (Rmax (Rmax a b) (MaxRlist (c :: l))
          = Rmax a (Rmax b (MaxRlist (c :: l)))).
  symmetry. apply Rmax_assoc.
Qed.

Lemma fold_minimum_Fin (l : list R) : forall a,
  fold_left np.minimum (map Fin l) (Fin a) = Fin (MinRlist (a :: l)).
Proof.
  induction l as [| b l IH]; intro a; [reflexivity |].
  cbn [map fold_left]. rewrite minimum_Fin, IH. f_equal.
  destruct l as [| c l]; [reflexivity |].
  change (Rmin (Rmin a b) (MinRlist (c :: l))
          = Rmin a (Rmin b (MinRlist (c :: l)))).
  symmetry. apply Rmin_assoc.
Qed.

Lemma MinRlist_In (l : list R) : l <> [] -> In (MinRlist l) l.
Proof.
  induction l as [| a l IH]; intro H; [contradiction |].
  destruct l as [| b l]; [left; reflexivity |].
  change (In (Rmin a (MinRlist (b :: l))) (a :: b :: l)).
  unfold Rmin. destruct (Rle_dec a (MinRlist (b :: l))).
  - left. reflexivity.
  - right. apply IH. discriminate.
Qed.

Lemma max_Fin (l : list R) :
  l <> [] ->
  exists g, Pandas.max (map Fin l) = Fin g /\ In g l /\
            forall x, In x l -> x <= g.
Proof.
  intro H. destruct l as [| a l]; [contradiction |].
  exists (MaxRlist (a :: l)). repeat split.
  - unfold Pandas.max. rewrite dropna_Fin. cbn [map].
    apply fold_maximum_Fin.
  - apply MaxRlist_P2. exists a. left. reflexivity.
  - intros x Hx. apply MaxRlist_P1, Hx.
Qed.

Lemma min_Fin (l : list R) :
  l <> [] ->
  exists m, Pandas.min (map Fin l) = Fin m /\ In m l /\
            forall x, In x l -> m <= x.
Proof.
  intro H. destruct l as [| a l]; [contradiction |].
  exists (MinRlist (a :: l)). repeat split.
  - unfold Pandas.min. rewrite dropna_Fin. cbn [map].
    apply fold_minimum_Fin.
  - apply MinRlist_In, H.
  - intros x Hx. apply MinRlist_P1, Hx.
Qed.

Lemma volatility_Fin (l : list R) :
  (2 <= length l)%nat ->
  volatility (map Fin l) = Fin (spec_sample_stdev l * sqrt 252).
Proof.
  intro H. unfold volatility. rewrite std_Fin by assumption.
  rewrite sqrt_Fin by lra. reflexivity.
Qed.

Lemma volatility_short (s : Pandas.Series) :
  (length (Pandas.dropna s) <= 1)%nat -> volatility s = NaN.
Proof.
  intro H. unfold volatility. rewrite std_short by assumption. reflexivity.
Qed.

(** C3, as the code has it.  For a series of positive closing prices
    with at least two points, the daily returns are
    [price[i] / price[i-1] - 1], the average daily move is the mean of
    their absolute values, and the largest gain and loss are their
    maximum and minimum.  With at least three points the volatility is
    their sample standard deviation (divisor n - 1) times [sqrt 252];
    with exactly two points there is a single return and the volatility
    is [nan]. *)
Theorem statistics_of_returns (price : list R) :
  Forall (fun p => 0 < p) price -> (2 <= length price)%nat ->
  let r := spec_return_series price in
  let dr := daily_returns (map Fin price) in
  dr = map Fin r /\
  avg_daily_move dr = Fin (spec_mean (map Rabs r)) /\
  (exists g, max_daily_gain dr = Fin g /\ In g r /\
             forall x, In x r -> x <= g) /\
  (exists m, max_daily_loss dr = Fin m /\ In m r /\
             forall x, In x r -> m <= x) /\
  ((3 <= length price)%nat ->
     volatility dr = Fin (spec_sample_stdev r * sqrt 252)) /\
  (length price = 2%nat -> volatility dr = NaN).
Proof.
  intros Hpos Hlen r dr. subst dr.
  rewrite daily_returns_spec by assumption. fold r.
  assert (Hr : length r = (length price - 1)%nat)
    by apply spec_return_series_length.
  assert (Hne : r <> []) by (intro E; rewrite E in Hr; simpl in Hr; lia).
  split; [reflexivity |]. split.
  { unfold avg_daily_move. rewrite abs_Fin. apply mean_Fin.
    intro E. apply map_eq_nil in E. contradiction. }
  split; [apply max_Fin, Hne |]. split; [apply min_Fin, Hne |]. split.
  - intro H3. apply volatility_Fin. lia.
  - intro H2. apply volatility_short. rewrite dropna_Fin, length_map. lia.
Qed.

Lemma statistics_of_returns_witness :
  let r := spec_return_series [100; 110; 99] in
  let dr := daily_returns (map Fin [100; 110; 99]) in
  dr = map Fin r /\
  avg_daily_move dr = Fin (spec_mean (map Rabs r)) /\
  volatility dr = Fin (spec_sample_stdev r * sqrt 252).
Proof.
  destruct (statistics_of_returns [100; 110; 99])
    as (Hr & Ha & _ & _ & Hv & _).
  - repeat constructor; lra.
  - simpl. lia.
  - repeat split; [exact Hr | exact Ha |]. apply Hv. simpl. lia.
Defined.

(** C3 as stated fails on a series of two points: the single daily
    return has no sample standard deviation, and the volatility is
    [nan], not the real number the claim names. *)
Lemma two_point_volatility_is_nan :
  volatility (daily_returns (map Fin [100; 110])) = NaN /\
  volatility (daily_returns (map Fin [100; 110]))
    <> Fin (spec_sample_stdev (spec_return_series [100; 110]) * sqrt 252).
Proof.
  assert (H : volatility (daily_returns (map Fin [100; 110])) = NaN).
  { rewrite daily_returns_spec by (repeat constructor; lra).
    apply volatility_short. rewrite dropna_Fin, length_map.
    rewrite spec_return_series_length. simpl. lia. }
  split; [exact H | rewrite H; discriminate].
Qed.

(** ** Running the analyzer *)

Section Runs.

Variable history : string -> exn + Pandas.Series.
Variable self : ComprehensiveOptionsAnalyzer.

Lemma analyze_option_fetched ticker sp d ot amt hist cp :
  history ticker = inr hist -> Pandas.iloc_last hist = inr cp ->
  (Z.abs d < float_limit)%Z ->
  run (analyze_option history self ticker sp d ot amt)
  = (inr (analysis_of hist cp ticker sp d ot amt),
     [Print (banner ticker ot);
      Plot (analysis_of hist cp ticker sp d ot amt) hist]).
Proof.
  intros Hh Hc Hd. unfold run, analyze_option, bind, emit, call, ret.
  cbn [app]. rewrite Hh, Hc, (time_to_expiry_in_range d Hd). reflexivity.
Qed.

Lemma analyze_option_overflow ticker sp d ot amt hist cp :
  history ticker = inr hist -> Pandas.iloc_last hist = inr cp ->
  (float_limit <= Z.abs d)%Z ->
  run (analyze_option history self ticker sp d ot amt)
  = (inl OverflowError, [Print (banner ticker ot)]).
Proof.
  intros Hh Hc Hd. unfold run, analyze_option, bind, emit, call, ret.
  cbn [app]. rewrite Hh, Hc, (time_to_expiry_overflow d Hd). reflexivity.
Qed.

Lemma analyze_option_raised ticker sp d ot amt e :
  history ticker = inl e ->
  run (analyze_option history self ticker sp d ot amt)
  = (inl e, [Print (banner ticker ot)]).
Proof.
  intros Hh. unfold run, analyze_option, bind, emit, call, ret.
  cbn [app]. rewrite Hh. reflexivity.
Qed.

Lemma analyze_option_empty ticker sp d ot amt :
  history ticker = inr [] ->
  run (analyze_option history self ticker sp d ot amt)
  = (inl IndexError, [Print (banner ticker ot)]).
Proof.
  intros Hh. unfold run, analyze_option, bind, emit, call, ret.
  cbn [app]. rewrite Hh. reflexivity.
Qed.

End Runs.

Lemma iloc_last_nonempty (s : Pandas.Series) :
  s <> [] -> Pandas.iloc_last s = inr (last s NaN).
Proof.
  induction s as [| x s IH]; intro H; [contradiction |].
  destruct s as [| y s]; [reflexivity |].
  change (Pandas.iloc_last (y :: s) = inr (last (y :: s) NaN)).
  apply IH. discriminate.
Qed.

(** ** A zero standard deviation *)

Lemma std_dev_zero sigma d :
  0 <= sigma -> (0 <= d)%Z -> sigma = 0 \/ d = 0%Z ->
  std_dev (Fin sigma) (days_over_365 d) = Fin 0.
Proof.
  intros Hs Hd Hz. apply IZR_le in Hd.
  unfold std_dev, days_over_365.
  rewrite sqrt_Fin by (apply Rmult_le_pos; lra).
  cbn [np.mul]. f_equal.
  destruct Hz as [-> | ->]; [ring |].
  replace (0 / 365) with 0 by lra. rewrite sqrt_0. ring.
Qed.

(** What the probability is when the standard deviation is zero: the
    sign of [log (strike / current)] decides. *)
Lemma prob_profit_zero_std_dev ot S K :
  0 < S -> 0 < K ->
  let p := prob_profit ot (Fin K) (Fin S) (Fin 0) in
  let is_call := String.eqb ot "call" in
  (K = S -> p = NaN) /\
  (S < K -> p = if is_call then Fin 0 else Fin 1) /\
  (K < S -> p = if is_call then Fin 1 else Fin 0).
Proof.
  intros HS HK p is_call. subst p is_call.
  assert (Hq : 0 < K / S) by (apply Rdiv_lt_0_compat; assumption).
  unfold prob_profit.
  rewrite div_Fin, log_Fin by lra.
  unfold np.div. rewrite Rsign_zero.
  repeat split.
  - intros ->. replace (S / S) with 1 by (field; lra).
    rewrite ln_1, Rsign_zero. destruct (String.eqb ot "call"); reflexivity.
  - intro H. rewrite Rsign_pos.
    + destruct (String.eqb ot "call"); cbn; [f_equal; lra | reflexivity].
    + rewrite <- ln_1. apply ln_increasing; [lra |].
      apply Rmult_lt_reg_r with S; [assumption |].
      unfold Rdiv. rewrite Rmult_assoc, Rinv_l by lra. lra.
  - intro H. rewrite Rsign_neg.
    + destruct (String.eqb ot "call"); cbn; [f_equal; lra | reflexivity].
    + rewrite <- ln_1. apply ln_increasing; [assumption |].
      apply Rmult_lt_reg_r with S; [assumption |].
      unfold Rdiv. rewrite Rmult_assoc, Rinv_l by lra. lra.
Qed.

(** A constant series of positive prices has zero returns and, from
    three points on, zero volatility. *)
Lemma Rpct_from_constant c n :
  c <> 0 -> Rpct_from c (repeat c n) = repeat 0 n.
Proof.
  intro H. induction n as [| n IH]; [reflexivity |].
  cbn [repeat Rpct_from]. rewrite IH. f_equal. field. exact H.
Qed.

Lemma Rsum_zeros n : Rsum (repeat 0 n) = 0.
Proof.
  unfold Rsum. induction n as [| n IH]; cbn [repeat fold_right];
    [| rewrite IH]; lra.
Qed.

Lemma spec_sample_stdev_zeros n : spec_sample_stdev (repeat 0 n) = 0.
Proof.
  unfold spec_sample_stdev, spec_mean.
  rewrite Rsum_zeros, map_repeat.
  replace ((0 - 0 / INR (length (repeat 0 n))) ^ 2) with 0
    by (unfold Rdiv; ring).
  rewrite Rsum_zeros. unfold Rdiv. rewrite Rmult_0_l. apply sqrt_0.
Qed.

Lemma constant_series_returns c n :
  0 < c ->
  daily_returns (map Fin (repeat c (S n))) = map Fin (repeat 0 n).
Proof.
  intro H. rewrite daily_returns_spec.
  - cbn [repeat]. rewrite <- Rpct_from_spec, Rpct_from_constant by lra.
    reflexivity.
  - apply Forall_forall. intros x Hx. apply repeat_spec in Hx. lra.
Qed.

Lemma constant_series_volatility c n :
  0 < c -> (2 <= n)%nat ->
  volatility (daily_returns (map Fin (repeat c (S n)))) = Fin 0.
Proof.
  intros H Hn. rewrite constant_series_returns by assumption.
  rewrite volatility_Fin by (rewrite repeat_length; exact Hn).
  rewrite spec_sample_stdev_zeros. f_equal. ring.
Qed.

(** ** Inputs the analyzer does not reject *)

Lemma prob_profit_nan_volatility ot sp cp t :
  prob_profit ot sp cp (std_dev NaN t) = NaN.
Proof.
  unfold prob_profit, std_dev. cbn [np.mul].
  assert (Hn : forall x, np.div x NaN = NaN) by (intros [| | |]; reflexivity).
  rewrite Hn. destruct (String.eqb ot "call"); reflexivity.
Qed.

(** C2, as the code has it.  The analyzer validates no parameter: once
    a non-empty series is fetched it does not raise
    [InvalidParameterError].  Whatever the strike, the option type and
    the volatility are, it returns the record when the days to expiry
    convert to a float, and raises [OverflowError] when they do not.  In
    the record, a volatility that is [nan] gives the probability [nan].
    When the volatility is a finite real number, prices are positive,
    and the volatility or the days to expiry are zero (neither being
    negative), the division by zero yields a value: the probability is
    [nan] if the strike equals the current price, 0 for a call and 1 for
    every other option type if the strike is above it, 1 for a call and
    0 for every other option type if the strike is below it. *)
Theorem zero_std_dev_not_rejected
    (history : string -> exn + Pandas.Series)
    (self : ComprehensiveOptionsAnalyzer) (ticker : string)
    (hist : Pandas.Series) (sp : np_float) (d : Z) (ot : string) (amt : R) :
  history ticker = inr hist -> hist <> [] ->
  let r := fst (run (analyze_option history self ticker sp d ot amt)) in
  r <> inl InvalidParameterError /\
  ((float_limit <= Z.abs d)%Z -> r = inl OverflowError) /\
  ((Z.abs d < float_limit)%Z ->
   exists a,
     r = inr a /\
     Analysis.prob_profit a
       = prob_profit ot sp (last hist NaN)
           (std_dev (volatility (daily_returns hist)) (days_over_365 d)) /\
     (volatility (daily_returns hist) = NaN ->
      Analysis.prob_profit a = NaN) /\
     forall S K sigma,
       last hist NaN = Fin S -> sp = Fin K ->
       volatility (daily_returns hist) = Fin sigma ->
       0 < S -> 0 < K -> 0 <= sigma -> (0 <= d)%Z ->
       sigma = 0 \/ d = 0%Z ->
       (K = S -> Analysis.prob_profit a = NaN) /\
       (S < K -> Analysis.prob_profit a
                 = if String.eqb ot "call" then Fin 0 else Fin 1) /\
       (K < S -> Analysis.prob_profit a
                 = if String.eqb ot "call" then Fin 1 else Fin 0)).
Proof.
  intros Hh Hne r. subst r.
  pose proof (iloc_last_nonempty hist Hne) as Hl.
  split; [| split].
  - destruct (Z.ltb_spec (Z.abs d) float_limit) as [Hd | Hd].
    + rewrite (analyze_option_fetched history self ticker sp d ot amt hist
                 (last hist NaN) Hh Hl Hd). discriminate.
    + rewrite (analyze_option_overflow history self ticker sp d ot amt hist
                 (last hist NaN) Hh Hl Hd). discriminate.
  - intro Hd.
    rewrite (analyze_option_overflow history self ticker sp d ot amt hist
               (last hist NaN) Hh Hl Hd). reflexivity.
  - intro Hd.
    exists (analysis_of hist (last hist NaN) ticker sp d ot amt).
    rewrite (analyze_option_fetched history self ticker sp d ot amt hist
               (last hist NaN) Hh Hl Hd).
    split; [reflexivity |]. split; [reflexivity |].
    cbn [analysis_of Analysis.prob_profit]. split.
    + intros ->. apply prob_profit_nan_volatility.
    + intros S K sigma HS HK Hv HSpos HKpos Hs Hd0 Hz.
      rewrite HS, HK, Hv, std_dev_zero by assumption.
      apply prob_profit_zero_std_dev; assumption.
Qed.

Lemma zero_std_dev_not_rejected_witness :
  (exists a,
     fst (run (analyze_option (fun _ => inr (map Fin (repeat 100 3))) init
                 "AAPL" (Fin 120) 0 "call" 1000)) = inr a /\
     Analysis.prob_profit a = Fin 0) /\
  (exists a,
     fst (run (analyze_option (fun _ => inr (map Fin (repeat 100 3))) init
                 "AAPL" (Fin 100) 30 "put" 1000)) = inr a /\
     Analysis.prob_profit a = NaN).
Proof.
  assert (Hv : volatility (daily_returns (map Fin (repeat 100 3))) = Fin 0)
    by (apply (constant_series_volatility 100 2); [lra | lia]).
  split.
  - destruct (zero_std_dev_not_rejected
                (fun _ => inr (map Fin (repeat 100 3))) init "AAPL"
                (map Fin (repeat 100 3)) (Fin 120) 0 "call" 1000
                eq_refl ltac:(discriminate)) as (_ & _ & Hin).
    destruct Hin as (a & Ha & _ & _ & Hz);
      [apply Z.ltb_lt; vm_compute; reflexivity |].
    exists a. split; [exact Ha |].
    apply (Hz 100 120 0); try reflexivity; try lra; try lia. exact Hv.
  - destruct (zero_std_dev_not_rejected
                (fun _ => inr (map Fin (repeat 100 3))) init "AAPL"
                (map Fin (repeat 100 3)) (Fin 100) 30 "put" 1000
                eq_refl ltac:(discriminate)) as (_ & _ & Hin).
    destruct Hin as (a & Ha & _ & _ & Hz);
      [apply Z.ltb_lt; vm_compute; reflexivity |].
    exists a. split; [exact Ha |].
    apply (Hz 100 100 0); try reflexivity; try lra; try lia. exact Hv.
Defined.

(** C2 as stated fails on the specification's own scenario: 21 equal
    closes at 100 give volatility 0, and the at-the-money call at 30
    days is analyzed, with probability [nan]; nothing is raised. *)
Lemma zero_volatility_call_is_nan :
  let r := fst (run (analyze_option
                       (fun _ => inr (map Fin (repeat 100 21))) init
                       "AAPL" (Fin 100) 30 "call" 1000)) in
  r <> inl InvalidParameterError /\
  exists a, r = inr a /\ Analysis.volatility a = Fin 0 /\
            Analysis.prob_profit a = NaN.
Proof.
  set (hist := map Fin (repeat 100 21)).
  assert (Hl : Pandas.iloc_last hist = inr (Fin 100)) by reflexivity.
  assert (Hv : volatility (daily_returns hist) = Fin 0)
    by (apply (constant_series_volatility 100 20); [lra | lia]).
  rewrite (analyze_option_fetched (fun _ => inr hist) init "AAPL" (Fin 100)
             30 "call" 1000 hist (Fin 100) eq_refl Hl thirty_abs_in_range).
  cbn [fst]. split; [discriminate |].
  eexists. split; [reflexivity |].
  cbn [analysis_of Analysis.volatility Analysis.prob_profit].
  split; [exact Hv |]. rewrite Hv.
  rewrite (std_dev_zero 0 30) by (try lra; try lia; left; reflexivity).
  apply (prob_profit_zero_std_dev "call" 100 100); lra.
Qed.

(** ** Short series *)

Lemma daily_returns_short (hist : Pandas.Series) :
  (length hist < 2)%nat -> daily_returns hist = [].
Proof.
  intro H. destruct hist as [| x [| y l]]; [reflexivity | reflexivity |].
  simpl in H. lia.
Qed.

Lemma avg_daily_move_no_return : avg_daily_move [] = NaN.
Proof.
  unfold avg_daily_move, Pandas.mean, Pandas.sum. cbn.
  rewrite !Rsign_zero. reflexivity.
Qed.

(** C4, as the code has it.  A series with fewer than two points is not
    rejected with [InsufficientDataError].  With one point there is no
    daily return: when the days to expiry convert to a float the
    analysis is returned with volatility, average move, largest gain and
    largest loss all [nan] (and [OverflowError] is raised when they do
    not).  With no point, taking the current price raises
    [IndexError]. *)
Theorem short_series_not_rejected
    (history : string -> exn + Pandas.Series)
    (self : ComprehensiveOptionsAnalyzer) (ticker : string)
    (hist : Pandas.Series) (sp : np_float) (d : Z) (ot : string) (amt : R) :
  history ticker = inr hist -> (length hist < 2)%nat ->
  let r := fst (run (analyze_option history self ticker sp d ot amt)) in
  r <> inl InsufficientDataError /\
  match hist with
  | [] => r = inl IndexError
  | _ =>
      ((Z.abs d < float_limit)%Z ->
       exists a, r = inr a /\
                 Analysis.volatility a = NaN /\
                 Analysis.avg_daily_move a = NaN /\
                 Analysis.max_daily_gain a = NaN /\
                 Analysis.max_daily_loss a = NaN) /\
      ((float_limit <= Z.abs d)%Z -> r = inl OverflowError)
  end.
Proof.
  intros Hh Hlen r. subst r.
  destruct hist as [| x l].
  - rewrite (analyze_option_empty history self ticker sp d ot amt Hh).
    split; [discriminate | reflexivity].
  - assert (Hne : x :: l <> []) by discriminate.
    pose proof (iloc_last_nonempty _ Hne) as Hl.
    split; [| split].
    + destruct (Z.ltb_spec (Z.abs d) float_limit) as [Hd | Hd].
      * rewrite (analyze_option_fetched history self ticker sp d ot amt
                   (x :: l) _ Hh Hl Hd). discriminate.
      * rewrite (analyze_option_overflow history self ticker sp d ot amt
                   (x :: l) _ Hh Hl Hd). discriminate.
    + intro Hd.
      rewrite (analyze_option_fetched history self ticker sp d ot amt
                 (x :: l) _ Hh Hl Hd).
      eexists. split; [reflexivity |].
      cbn [analysis_of Analysis.volatility Analysis.avg_daily_move
           Analysis.max_daily_gain Analysis.max_daily_loss].
      rewrite (daily_returns_short (x :: l) Hlen).
      rewrite avg_daily_move_no_return. repeat split; reflexivity.
    + intro Hd.
      rewrite (analyze_option_overflow history self ticker sp d ot amt
                 (x :: l) _ Hh Hl Hd). reflexivity.
Qed.

Lemma short_series_not_rejected_witness :
  let r := fst (run (analyze_option (fun _ => inr [Fin 100]) init "AAPL"
                       (Fin 170) 30 "call" 1000)) in
  exists a, r = inr a /\
            Analysis.volatility a = NaN /\
            Analysis.avg_daily_move a = NaN /\
            Analysis.max_daily_gain a = NaN /\
            Analysis.max_daily_loss a = NaN.
Proof.
  destruct (short_series_not_rejected (fun _ => inr [Fin 100]) init "AAPL"
              [Fin 100] (Fin 170) 30 "call" 1000) as (_ & Hin & _).
  - reflexivity.
  - simpl. lia.
  - apply Hin, thirty_abs_in_range.
Defined.

(** C4 as stated fails on a series of one point: the analysis is
    returned, its statistics being [nan]; [InsufficientDataError] is not
    raised. *)
Lemma one_point_series_is_analyzed :
  let r := fst (run (analyze_option (fun _ => inr [Fin 100]) init "AAPL"
                       (Fin 170) 30 "call" 1000)) in
  r <> inl InsufficientDataError /\
  exists a, r = inr a /\ Analysis.volatility a = NaN.
Proof.
  rewrite (analyze_option_fetched (fun _ => inr [Fin 100]) init "AAPL"
             (Fin 170) 30 "call" 1000 [Fin 100] (Fin 100) eq_refl eq_refl
             thirty_abs_in_range).
  cbn [fst]. split; [discriminate |].
  eexists. split; reflexivity.
Qed.

(** ** A failing collaborator *)

(** C8, as the code has it.  When the market-data collaborator raises,
    the analyzer raises that same exception, unchanged: nothing is
    computed or plotted after the line printed on entry, and no record
    is returned. *)
Theorem collaborator_failure_propagates
    (history : string -> exn + Pandas.Series)
    (self : ComprehensiveOptionsAnalyzer) (ticker : string)
    (sp : np_float) (d : Z) (ot : string) (amt : R) (e : exn) :
  history ticker = inl e ->
  run (analyze_option history self ticker sp d ot amt)
  = (inl e, [Print (banner ticker ot)]).
Proof. apply analyze_option_raised. Qed.

Lemma collaborator_failure_propagates_witness :
  run (analyze_option (fun _ => inl "ConnectionError"%string) init "AAPL"
         (Fin 170) 30 "call" 1000)
  = (inl "ConnectionError"%string, [Print (banner "AAPL" "call")]).
Proof.
  apply (collaborator_failure_propagates
           (fun _ => inl "ConnectionError"%string) init "AAPL" (Fin 170) 30
           "call" 1000 "ConnectionError"%string).
  reflexivity.
Defined.

(** C8 as stated fails in the kind of the error: a collaborator that
    raises [ConnectionError] makes the analyzer raise [ConnectionError],
    not [DataUnavailableError]. *)
Lemma collaborator_error_is_not_translated :
  fst (run (analyze_option (fun _ => inl "ConnectionError"%string) init
              "ZZZZ" (Fin 170) 30 "call" 1000))
  <> inl DataUnavailableError.
Proof.
  rewrite (analyze_option_raised (fun _ => inl "ConnectionError"%string) init
             "ZZZZ" (Fin 170) 30 "call" 1000 "ConnectionError"%string eq_refl).
  cbn [fst]. discriminate.
Qed.

(** ** The investment amount and the option type *)

(** C9.  Two runs that differ only in the investment amount fail with
    the same exception, or return records equal in every field but
    [investment_amount], which holds the amount passed. *)
Theorem investment_amount_is_informational
    (history : string -> exn + Pandas.Series)
    (self : ComprehensiveOptionsAnalyzer) (ticker : string)
    (sp : np_float) (d : Z) (ot : string) (amt1 amt2 : R) :
  match fst (run (analyze_option history self ticker sp d ot amt1)),
        fst (run (analyze_option history self ticker sp d ot amt2)) with
  | inr a1, inr a2 =>
      Analysis.ticker a1 = Analysis.ticker a2 /\
      Analysis.current_price a1 = Analysis.current_price a2 /\
      Analysis.strike_price a1 = Analysis.strike_price a2 /\
      Analysis.days_to_expiry a1 = Analysis.days_to_expiry a2 /\
      Analysis.volatility a1 = Analysis.volatility a2 /\
      Analysis.avg_daily_move a1 = Analysis.avg_daily_move a2 /\
      Analysis.max_daily_gain a1 = Analysis.max_daily_gain a2 /\
      Analysis.max_daily_loss a1 = Analysis.max_daily_loss a2 /\
      Analysis.prob_profit a1 = Analysis.prob_profit a2 /\
      Analysis.option_type a1 = Analysis.option_type a2 /\
      Analysis.investment_amount a1 = amt1 /\
      Analysis.investment_amount a2 = amt2
  | inl e1, inl e2 => e1 = e2
  | _, _ => False
  end.
Proof.
  destruct (history ticker) as [e | hist] eqn:Hh.
  - rewrite !(analyze_option_raised history self ticker sp d ot _ e Hh).
    reflexivity.
  - destruct hist as [| x l].
    + rewrite !(analyze_option_empty history self ticker sp d ot _ Hh).
      reflexivity.
    + assert (Hne : x :: l <> []) by discriminate.
      destruct (Z.ltb_spec (Z.abs d) float_limit) as [Hd | Hd].
      * rewrite !(analyze_option_fetched history self ticker sp d ot _
                    (x :: l) _ Hh (iloc_last_nonempty _ Hne) Hd).
        cbn. repeat split; reflexivity.
      * rewrite !(analyze_option_overflow history self ticker sp d ot _
                    (x :: l) _ Hh (iloc_last_nonempty _ Hne) Hd).
        reflexivity.
Qed.

Lemma probability_metrics_not_call ot sp cp vol d :
  ot <> "call"%string ->
  probability_metrics ot sp cp vol d = probability_metrics "put" sp cp vol d.
Proof.
  intro Hot. unfold probability_metrics.
  destruct (time_to_expiry d) as [e | t]; [reflexivity |].
  cbn zeta. rewrite !prob_profit_not_call by (assumption || discriminate).
  reflexivity.
Qed.

(** C10.  Every option type other than ["call"] takes the put branch:
    the probability is [norm.cdf] of the standardized threshold, which on
    valid inputs is [Phi (log (strike / current) / std_dev)].  No option
    type is rejected: on every input the analyzer does with such an
    option type what it does with ["put"], raising the same exception or
    returning the record with that option type and the put
    probability. *)
Theorem option_type_other_than_call_is_put (ot : string) :
  ot <> "call"%string ->
  (forall sp cp sd,
     prob_profit ot sp cp sd
     = norm.cdf (np.div (np.log (np.div sp cp)) sd) /\
     prob_profit ot sp cp sd = prob_profit "put" sp cp sd) /\
  (forall sp cp vol d,
     probability_metrics ot sp cp vol d
     = probability_metrics "put" sp cp vol d) /\
  (forall S K sigma d,
     0 < S -> 0 < K -> (0 < d < float_limit)%Z -> 0 < sigma ->
     probability_metrics ot (Fin K) (Fin S) (Fin sigma) d
     = inr (Fin (Phi (ln (K / S) / (sigma * sqrt (IZR d / 365)))))) /\
  (forall history self ticker sp d amt,
     match fst (run (analyze_option history self ticker sp d ot amt)),
           fst (run (analyze_option history self ticker sp d "put" amt)) with
     | inr a, inr a' =>
         Analysis.option_type a = ot /\
         Analysis.prob_profit a = Analysis.prob_profit a' /\
         Analysis.prob_profit a
         = norm.cdf
             (np.div (np.log (np.div (Analysis.strike_price a)
                                (Analysis.current_price a)))
                (std_dev (Analysis.volatility a) (days_over_365 d)))
     | inl e, inl e' => e = e'
     | _, _ => False
     end) /\
  (forall history self ticker sp d amt hist,
     history ticker = inr hist -> hist <> [] ->
     (Z.abs d < float_limit)%Z ->
     exists a,
       fst (run (analyze_option history self ticker sp d ot amt)) = inr a /\
       Analysis.option_type a = ot /\
       Analysis.prob_profit a
       = norm.cdf (np.div (np.log (np.div sp (last hist NaN)))
                     (std_dev (volatility (daily_returns hist))
                        (days_over_365 d)))).
Proof.
  intro Hot. split; [| split; [| split; [| split]]].
  - intros sp cp sd. split.
    + apply prob_profit_not_call, Hot.
    + rewrite !prob_profit_not_call by (assumption || discriminate).
      reflexivity.
  - intros. apply probability_metrics_not_call, Hot.
  - intros S K sigma d HS HK Hd Hs.
    rewrite probability_metrics_in_range by (apply positive_in_range, Hd).
    destruct Hd as [Hd _]. f_equal.
    rewrite prob_profit_not_call, standardized_valid by assumption.
    reflexivity.
  - intros history self ticker sp d amt.
    destruct (history ticker) as [e | hist] eqn:Hh.
    + rewrite !(analyze_option_raised history self ticker sp d _ amt e Hh).
      reflexivity.
    + destruct hist as [| x l].
      * rewrite !(analyze_option_empty history self ticker sp d _ amt Hh).
        reflexivity.
      * assert (Hne : x :: l <> []) by discriminate.
        destruct (Z.ltb_spec (Z.abs d) float_limit) as [Hd | Hd].
        -- rewrite !(analyze_option_fetched history self ticker sp d _ amt
                       (x :: l) _ Hh (iloc_last_nonempty _ Hne) Hd).
           cbn [fst analysis_of Analysis.option_type Analysis.prob_profit
                Analysis.strike_price Analysis.current_price
                Analysis.volatility].
           rewrite !prob_profit_not_call by (assumption || discriminate).
           repeat split; reflexivity.
        -- rewrite !(analyze_option_overflow history self ticker sp d _ amt
                       (x :: l) _ Hh (iloc_last_nonempty _ Hne) Hd).
           reflexivity.
  - intros history self ticker sp d amt hist Hh Hne Hd.
    rewrite (analyze_option_fetched history self ticker sp d ot amt hist
               _ Hh (iloc_last_nonempty _ Hne) Hd).
    eexists. split; [reflexivity |]. split; [reflexivity |].
    cbn [analysis_of Analysis.prob_profit].
    apply prob_profit_not_call, Hot.
Qed.

Lemma option_type_other_than_call_is_put_witness :
  (forall sp cp sd,
     prob_profit "straddle" sp cp sd
     = norm.cdf (np.div (np.log (np.div sp cp)) sd) /\
     prob_profit "straddle" sp cp sd = prob_profit "put" sp cp sd) /\
  (forall sp cp vol d,
     probability_metrics "straddle" sp cp vol d
     = probability_metrics "put" sp cp vol d) /\
  (forall S K sigma d,
     0 < S -> 0 < K -> (0 < d < float_limit)%Z -> 0 < sigma ->
     probability_metrics "straddle" (Fin K) (Fin S) (Fin sigma) d
     = inr (Fin (Phi (ln (K / S) / (sigma * sqrt (IZR d / 365)))))) /\
  (forall history self ticker sp d amt,
     match fst (run (analyze_option history self ticker sp d "straddle"
                       amt)),
           fst (run (analyze_option history self ticker sp d "put" amt)) with
     | inr a, inr a' =>
         Analysis.option_type a = "straddle"%string /\
         Analysis.prob_profit a = Analysis.prob_profit a' /\
         Analysis.prob_profit a
         = norm.cdf
             (np.div (np.log (np.div (Analysis.strike_price a)
                                (Analysis.current_price a)))
                (std_dev (Analysis.volatility a) (days_over_365 d)))
     | inl e, inl e' => e = e'
     | _, _ => False
     end) /\
  (forall history self ticker sp d amt hist,
     history ticker = inr hist -> hist <> [] ->
     (Z.abs d < float_limit)%Z ->
     exists a,
       fst (run (analyze_option history self ticker sp d "straddle" amt))
       = inr a /\
       Analysis.option_type a = "straddle"%string /\
       Analysis.prob_profit a
       = norm.cdf (np.div (np.log (np.div sp (last hist NaN)))
                     (std_dev (volatility (daily_returns hist))
                        (days_over_365 d)))).
Proof.
  apply (option_type_other_than_call_is_put "straddle"). discriminate.
Defined.

(** * Further properties of the code *)

(** ** Comparisons *)

Lemma ltb_Fin a b : np_ltb (Fin a) (Fin b) = true <-> a < b.
Proof.
  unfold np_ltb, np.leb.
  destruct (Rle_dec a b), (Rle_dec b a); cbn; split; intro H;
    try discriminate; try reflexivity; lra.
Qed.

Lemma ltb_Fin_false a b : np_ltb (Fin a) (Fin b) = false <-> b <= a.
Proof.
  pose proof (ltb_Fin a b) as H.
  destruct (np_ltb (Fin a) (Fin b)); split; intro H';
    try discriminate; try reflexivity.
  - apply proj1 in H. specialize (H eq_refl). lra.
  - destruct (Rlt_le_dec a b) as [Hlt | Hle]; [| exact Hle].
    apply H in Hlt. discriminate.
Qed.

Lemma py_max_Fin a b : py_max (Fin a) (Fin b) = Fin (Rmax a b).
Proof.
  unfold py_max. destruct (np_ltb (Fin a) (Fin b)) eqn:E.
  - apply ltb_Fin in E. rewrite Rmax_right by lra. reflexivity.
  - apply ltb_Fin_false in E. rewrite Rmax_left by lra. reflexivity.
Qed.

Lemma np_maximum_Fin a b : np_maximum (Fin a) (Fin b) = Fin (Rmax a b).
Proof. unfold np_maximum. cbn [np.isnan]. apply maximum_Fin. Qed.

(** ** The risk level of the explanation *)

(** X1.  The risk level is LOW for a volatility below 0.15, MEDIUM from
    0.15 to below 0.3 and HIGH from 0.3 on; a volatility that is [nan]
    compares false with both bounds and is reported HIGH. *)
Theorem risk_level_classes (v : R) :
  (v < 15 / 100 -> Explain.risk_level (Fin v) = "LOW"%string) /\
  (15 / 100 <= v < 3 / 10 -> Explain.risk_level (Fin v) = "MEDIUM"%string) /\
  (3 / 10 <= v -> Explain.risk_level (Fin v) = "HIGH"%string) /\
  Explain.risk_level NaN = "HIGH"%string.
Proof.
  unfold Explain.risk_level. repeat split.
  - intro H. apply ltb_Fin in H. rewrite H. reflexivity.
  - intros [H1 H2]. apply ltb_Fin_false in H1. apply ltb_Fin in H2.
    rewrite H1, H2. reflexivity.
  - intro H.
    assert (H1 : np_ltb (Fin v) (Fin (15 / 100)) = false)
      by (apply ltb_Fin_false; lra).
    assert (H2 : np_ltb (Fin v) (Fin (3 / 10)) = false)
      by (apply ltb_Fin_false; lra).
    rewrite H1, H2. reflexivity.
Qed.

(** X2.  A price history of a single close is analyzed when the days
    to expiry convert to a float (its volatility is [nan]), and the
    explanation of that analysis reports the risk level HIGH and gives
    the advice for a high risk. *)
Theorem single_close_is_high_risk
    (history : string -> exn + Pandas.Series)
    (self : ComprehensiveOptionsAnalyzer) (ticker : string) (x : np_float)
    (sp : np_float) (d : Z) (ot : string) (amt : R) :
  history ticker = inr [x] -> (Z.abs d < float_limit)%Z ->
  exists a,
    fst (run (analyze_option history self ticker sp d ot amt)) = inr a /\
    Explain.risk_level (Analysis.volatility a) = "HIGH"%string /\
    Explain.risk_advice (Explain.risk_level (Analysis.volatility a))
    = ("- Consider using stop losses to manage risk" ++ nl
       ++ "- Think about taking partial profits if available" ++ nl)%string.
Proof.
  intros Hh Hd.
  rewrite (analyze_option_fetched history self ticker sp d ot amt [x] x Hh
             eq_refl Hd).
  eexists. split; [reflexivity |].
  cbn [analysis_of Analysis.volatility].
  rewrite (daily_returns_short [x]) by (simpl; lia).
  rewrite (volatility_short []) by (simpl; lia).
  split; reflexivity.
Qed.

Lemma single_close_is_high_risk_witness :
  exists a,
    fst (run (analyze_option (fun _ => inr [Fin 100]) init "AAPL" (Fin 170)
                30 "call" 1000)) = inr a /\
    Explain.risk_level (Analysis.volatility a) = "HIGH"%string /\
    Explain.risk_advice (Explain.risk_level (Analysis.volatility a))
    = ("- Consider using stop losses to manage risk" ++ nl
       ++ "- Think about taking partial profits if available" ++ nl)%string.
Proof.
  apply (single_close_is_high_risk (fun _ => inr [Fin 100]) init "AAPL"
           (Fin 100) (Fin 170) 30 "call" 1000).
  - reflexivity.
  - apply thirty_abs_in_range.
Defined.

(** ** More on the probability of profit *)

(** X3.  On every input the call and the put probabilities are
    complementary: they add up to 1, unless the standardized threshold is
    [nan], in which case both are [nan]. *)
Theorem call_put_complement (sp cp sd : np_float) :
  (prob_profit "call" sp cp sd = NaN /\ prob_profit "put" sp cp sd = NaN) \/
  np.add (prob_profit "call" sp cp sd) (prob_profit "put" sp cp sd) = Fin 1.
Proof.
  rewrite prob_profit_call, prob_profit_not_call by discriminate.
  destruct (np.div (np.log (np.div sp cp)) sd) as [r | | |]; cbn.
  - right. f_equal. lra.
  - right. f_equal. lra.
  - right. f_equal. lra.
  - left. split; reflexivity.
Qed.

Lemma std_dev_increasing sigma1 sigma2 d1 d2 :
  0 < sigma1 -> sigma1 <= sigma2 -> (0 < d1)%Z -> (d1 <= d2)%Z ->
  sigma1 * sqrt (IZR d1 / 365) <= sigma2 * sqrt (IZR d2 / 365).
Proof.
  intros Hs Hss Hd Hdd. apply IZR_lt in Hd. apply IZR_le in Hdd.
  apply Rmult_le_compat; try lra.
  - apply sqrt_pos.
  - apply sqrt_le_1; lra.
Qed.

Lemma ln_ratio_sign S K :
  0 < S -> 0 < K ->
  (S <= K -> 0 <= ln (K / S)) /\ (K <= S -> ln (K / S) <= 0).
Proof.
  intros HS HK.
  assert (Hq : 0 < K / S) by (apply Rdiv_lt_0_compat; assumption).
  assert (Hone : forall a b, 0 < a -> a <= b -> ln a <= ln b).
  { intros a b Ha [Hab | ->]; [left; apply ln_increasing; assumption | lra]. }
  split; intro H; rewrite <- ln_1.
  - apply Hone; [lra |].
    apply Rmult_le_reg_r with S; [assumption |].
    unfold Rdiv. rewrite Rmult_assoc, Rinv_l by lra. lra.
  - apply Hone; [assumption |].
    apply Rmult_le_reg_r with S; [assumption |].
    unfold Rdiv. rewrite Rmult_assoc, Rinv_l by lra. lra.
Qed.

Lemma Phi_half_sign x :
  (0 <= x -> 1 / 2 <= Phi x) /\ (x <= 0 -> Phi x <= 1 / 2).
Proof.
  split; intro H; rewrite <- Phi_0; apply Phi_increasing, H.
Qed.

Lemma threshold_sign S K sigma d :
  0 < S -> 0 < K -> (0 < d)%Z -> 0 < sigma ->
  (S <= K -> 0 <= threshold S K sigma d) /\
  (K <= S -> threshold S K sigma d <= 0).
Proof.
  intros HS HK Hd Hs.
  destruct (std_dev_valid sigma d Hs Hd) as [_ Hpos].
  destruct (ln_ratio_sign S K HS HK) as [H1 H2].
  assert (Hi : 0 < / (sigma * sqrt (IZR d / 365)))
    by apply Rinv_0_lt_compat, Hpos.
  unfold threshold, Rdiv. split; intro H.
  - apply Rmult_le_pos; [apply H1, H | lra].
  - specialize (H2 H). nra.
Qed.

(** The threshold shrinks towards 0 when the standard deviation grows. *)
Lemma threshold_shrinks S K sigma1 sigma2 d1 d2 :
  0 < S -> 0 < K ->
  0 < sigma1 -> sigma1 <= sigma2 -> (0 < d1)%Z -> (d1 <= d2)%Z ->
  (S <= K -> threshold S K sigma2 d2 <= threshold S K sigma1 d1) /\
  (K <= S -> threshold S K sigma1 d1 <= threshold S K sigma2 d2).
Proof.
  intros HS HK Hs Hss Hd Hdd.
  destruct (std_dev_valid sigma1 d1 Hs Hd) as [_ Hp1].
  pose proof (std_dev_increasing sigma1 sigma2 d1 d2 Hs Hss Hd Hdd) as Hle.
  destruct (ln_ratio_sign S K HS HK) as [H1 H2].
  assert (Hinv : / (sigma2 * sqrt (IZR d2 / 365))
                 <= / (sigma1 * sqrt (IZR d1 / 365)))
    by (apply Rinv_le_contravar; assumption).
  assert (Hi2 : 0 < / (sigma2 * sqrt (IZR d2 / 365)))
    by (apply Rinv_0_lt_compat; lra).
  unfold threshold, Rdiv. split; intro H.
  - specialize (H1 H). nra.
  - specialize (H2 H). nra.
Qed.

Lemma call_probability_towards_half
    (S K sigma1 sigma2 : R) (d1 d2 : Z) :
  0 < S -> 0 < K ->
  0 < sigma1 -> sigma1 <= sigma2 -> (0 < d1)%Z -> (d1 <= d2)%Z ->
  exists p1 p2 : R,
    prob_profit "call" (Fin K) (Fin S)
      (std_dev (Fin sigma1) (days_over_365 d1)) = Fin p1 /\
    prob_profit "call" (Fin K) (Fin S)
      (std_dev (Fin sigma2) (days_over_365 d2)) = Fin p2 /\
    (S <= K -> p1 <= p2 <= 1 / 2) /\
    (K <= S -> 1 / 2 <= p2 <= p1).
Proof.
  intros HS HK Hs Hss Hd Hdd.
  assert (Hs2 : 0 < sigma2) by lra. assert (Hd2 : (0 < d2)%Z) by lia.
  exists (1 - Phi (threshold S K sigma1 d1)),
         (1 - Phi (threshold S K sigma2 d2)).
  rewrite !prob_profit_call_valid by assumption.
  split; [reflexivity |]. split; [reflexivity |].
  destruct (threshold_shrinks S K sigma1 sigma2 d1 d2 HS HK Hs Hss Hd Hdd)
    as [Hup Hdown].
  destruct (threshold_sign S K sigma2 d2 HS HK Hd2 Hs2) as [Hpos Hneg].
  split; intro H.
  - specialize (Hup H). apply Phi_increasing in Hup.
    specialize (Hpos H). apply Phi_half_sign in Hpos. lra.
  - specialize (Hdown H). apply Phi_increasing in Hdown.
    specialize (Hneg H). apply Phi_half_sign in Hneg. lra.
Qed.

(** X4.  With positive prices, positive volatilities and positive days
    to expiry that convert to a float, a larger volatility or a longer
    time to expiry moves the probability of profit of a call towards one
    half: it grows, staying at most 1/2, when the strike is at or above
    the current price, and it falls, staying at least 1/2, when the
    strike is at or below it. *)
Theorem call_probability_moves_towards_half
    (S K sigma1 sigma2 : R) (d1 d2 : Z) :
  0 < S -> 0 < K ->
  0 < sigma1 -> sigma1 <= sigma2 ->
  (0 < d1)%Z -> (d1 <= d2)%Z -> (d2 < float_limit)%Z ->
  exists p1 p2 : R,
    probability_metrics "call" (Fin K) (Fin S) (Fin sigma1) d1
    = inr (Fin p1) /\
    probability_metrics "call" (Fin K) (Fin S) (Fin sigma2) d2
    = inr (Fin p2) /\
    (S <= K -> p1 <= p2 <= 1 / 2) /\
    (K <= S -> 1 / 2 <= p2 <= p1).
Proof.
  intros HS HK Hs Hss Hd Hdd Hlim.
  destruct (call_probability_towards_half S K sigma1 sigma2 d1 d2
              HS HK Hs Hss Hd Hdd) as (p1 & p2 & H1 & H2 & Hcases).
  exists p1, p2.
  rewrite !probability_metrics_in_range by (apply positive_in_range; lia).
  rewrite H1, H2. repeat split; apply Hcases; assumption.
Qed.

Lemma call_probability_moves_towards_half_witness :
  exists p1 p2 : R,
    probability_metrics "call" (Fin 170) (Fin 150) (Fin (1 / 4)) 30
    = inr (Fin p1) /\
    probability_metrics "call" (Fin 170) (Fin 150) (Fin (1 / 2)) 60
    = inr (Fin p2) /\
    (150 <= 170 -> p1 <= p2 <= 1 / 2) /\
    (170 <= 150 -> 1 / 2 <= p2 <= p1).
Proof.
  apply (call_probability_moves_towards_half 150 170 (1 / 4) (1 / 2) 30 60);
    try lra; try lia.
  apply Z.ltb_lt. vm_compute. reflexivity.
Defined.

Lemma non_positive_strike_or_days_values
    (S sigma K : R) (d d' : Z) (sp : np_float) (ot : string) :
  0 < S -> 0 < sigma -> (0 < d)%Z -> K < 0 -> (d' < 0)%Z ->
  prob_profit ot (Fin K) (Fin S) (std_dev (Fin sigma) (days_over_365 d))
  = NaN /\
  prob_profit ot (Fin 0) (Fin S) (std_dev (Fin sigma) (days_over_365 d))
  = (if String.eqb ot "call" then Fin 1 else Fin 0) /\
  prob_profit ot sp (Fin S) (std_dev (Fin sigma) (days_over_365 d'))
  = NaN.
Proof.
  intros HS Hs Hd HK Hd'.
  destruct (std_dev_valid sigma d Hs Hd) as [-> Hpos].
  repeat split.
  - unfold prob_profit. rewrite div_Fin by lra.
    assert (Hq : K / S < 0).
    { unfold Rdiv. assert (0 < / S) by (apply Rinv_0_lt_compat, HS). nra. }
    unfold np.log. rewrite (Rsign_neg _ Hq).
    destruct (String.eqb ot "call"); reflexivity.
  - unfold prob_profit. rewrite div_Fin by lra.
    replace (0 / S) with 0 by (unfold Rdiv; ring).
    unfold np.log. rewrite Rsign_zero.
    unfold np.div. rewrite (Rsign_pos _ Hpos).
    destruct (String.eqb ot "call"); cbn; [f_equal; lra | reflexivity].
  - apply IZR_lt in Hd'.
    assert (Hsd : std_dev (Fin sigma) (days_over_365 d') = NaN).
    { unfold std_dev, days_over_365, np.sqrt.
      rewrite Rsign_neg; [reflexivity |].
      unfold Rdiv. lra. }
    rewrite Hsd. unfold prob_profit.
    assert (Hn : forall x, np.div x NaN = NaN) by (intros [| | |]; reflexivity).
    rewrite Hn. destruct (String.eqb ot "call"); reflexivity.
Qed.

(** X5.  Strikes and days that are not positive are not rejected
    either.  With a positive current price and volatility and days to
    expiry that convert to a float: a negative strike gives the
    probability [nan] and a zero strike gives 1 for a call and 0 for a
    put (the days being positive), and negative days to expiry give
    [nan] whatever the strike. *)
Theorem non_positive_strike_or_days
    (S sigma K : R) (d d' : Z) (sp : np_float) (ot : string) :
  0 < S -> 0 < sigma -> (0 < d < float_limit)%Z -> K < 0 ->
  (- float_limit < d' < 0)%Z ->
  probability_metrics ot (Fin K) (Fin S) (Fin sigma) d = inr NaN /\
  probability_metrics ot (Fin 0) (Fin S) (Fin sigma) d
  = inr (if String.eqb ot "call" then Fin 1 else Fin 0) /\
  probability_metrics ot sp (Fin S) (Fin sigma) d' = inr NaN.
Proof.
  intros HS Hs Hd HK Hd'.
  destruct (non_positive_strike_or_days_values S sigma K d d' sp ot)
    as (H1 & H2 & H3); try assumption; try lia.
  rewrite !probability_metrics_in_range by lia.
  rewrite H1, H2, H3. repeat split.
Qed.

Lemma non_positive_strike_or_days_witness :
  probability_metrics "call" (Fin (-10)) (Fin 150) (Fin (1 / 4)) 30
  = inr NaN /\
  probability_metrics "call" (Fin 0) (Fin 150) (Fin (1 / 4)) 30
  = inr (if String.eqb "call" "call" then Fin 1 else Fin 0) /\
  probability_metrics "call" (Fin 170) (Fin 150) (Fin (1 / 4)) (-5)
  = inr NaN.
Proof.
  apply (non_positive_strike_or_days 150 (1 / 4) (-10) 30 (-5) (Fin 170)
           "call"); try lra.
  - apply thirty_in_range.
  - split; [apply Z.ltb_lt; vm_compute; reflexivity | lia].
Defined.

(** ** More on the statistics *)

Lemma Rsum_all_equal (l : list R) (c : R) :
  (forall x, In x l -> x = c) -> Rsum l = INR (length l) * c.
Proof.
  unfold Rsum. induction l as [| a l IH]; intro H.
  - simpl. ring.
  - cbn [fold_right length]. rewrite S_INR, IH by (intros; apply H; now right).
    rewrite (H a) by now left. ring.
Qed.

Lemma spec_mean_all_equal (l : list R) (c : R) :
  l <> [] -> (forall x, In x l -> x = c) -> spec_mean l = c.
Proof.
  intros Hne H. unfold spec_mean. rewrite (Rsum_all_equal l c H).
  field. apply INR_length_nonzero, Hne.
Qed.

Lemma Rsum_squares_zero (m : R) (l : list R) :
  Rsum (map (fun r => (r - m) ^ 2) l) = 0 -> forall x, In x l -> x = m.
Proof.
  induction l as [| a l IH]; intros H x Hx; [contradiction |].
  pose proof (Rsum_squares_nonneg (fun r => r - m) l) as Hl.
  pose proof (pow2_ge_0 (a - m)) as Ha.
  unfold Rsum in *. cbn [map fold_right] in H.
  destruct Hx as [<- | Hx].
  - assert (Hz : (a - m) ^ 2 = 0) by lra.
    simpl in Hz. nra.
  - apply IH; [lra | exact Hx].
Qed.

Lemma spec_sample_stdev_nonneg (l : list R) : 0 <= spec_sample_stdev l.
Proof. apply sqrt_pos. Qed.

Lemma spec_sample_stdev_zero_iff (l : list R) :
  (2 <= length l)%nat ->
  spec_sample_stdev l = 0 <-> (forall x y, In x l -> In y l -> x = y).
Proof.
  intro Hlen.
  assert (Hn1 : 0 < INR (length l - 1)) by (apply lt_0_INR; lia).
  assert (Hne : l <> []) by (intro E; rewrite E in Hlen; simpl in Hlen; lia).
  unfold spec_sample_stdev. split.
  - intros H x y Hx Hy.
    apply sqrt_eq_0 in H.
    2:{ apply Rmult_le_pos; [apply Rsum_squares_nonneg |].
        left. apply Rinv_0_lt_compat, Hn1. }
    assert (Hs : Rsum (map (fun r => (r - spec_mean l) ^ 2) l) = 0).
    { apply Rmult_eq_reg_r with (/ INR (length l - 1)).
      - rewrite Rmult_0_l. exact H.
      - apply Rinv_neq_0_compat. lra. }
    rewrite (Rsum_squares_zero _ _ Hs x Hx), (Rsum_squares_zero _ _ Hs y Hy).
    reflexivity.
  - intro H. destruct l as [| c l]; [contradiction |].
    assert (Hc : forall x, In x (c :: l) -> x = c)
      by (intros x Hx; apply H; [exact Hx | now left]).
    rewrite (spec_mean_all_equal (c :: l) c Hne Hc).
    rewrite (Rsum_all_equal _ 0).
    + rewrite Rmult_0_r. unfold Rdiv. rewrite Rmult_0_l. apply sqrt_0.
    + intros x Hx. apply in_map_iff in Hx. destruct Hx as (y & <- & Hy).
      rewrite (Hc y Hy). ring.
Qed.

Lemma returns_above_minus_one (l : list R) : forall prev,
  0 < prev -> Forall (fun p => 0 < p) l ->
  Forall (fun r => -1 < r) (Rpct_from prev l).
Proof.
  induction l as [| x l IH]; intros prev Hp Hl; [constructor |].
  inversion Hl; subst. cbn [Rpct_from]. constructor.
  - assert (0 < x / prev) by (apply Rdiv_lt_0_compat; assumption). lra.
  - apply IH; assumption.
Qed.

Lemma Rsum_abs_nonneg (l : list R) : 0 <= Rsum (map Rabs l).
Proof.
  unfold Rsum. induction l as [| a l IH]; cbn [map fold_right]; [lra |].
  pose proof (Rabs_pos a). lra.
Qed.

(** X7.  For a series of at least two positive closes the largest loss
    is at least -1 (a price cannot lose more than all of its value) and
    at most the largest gain, and the average daily move is at least
    0. *)
Theorem statistics_bounds (price : list R) :
  Forall (fun p => 0 < p) price -> (2 <= length price)%nat ->
  let dr := daily_returns (map Fin price) in
  np.le (Fin (-1)) (max_daily_loss dr) /\
  np.le (max_daily_loss dr) (max_daily_gain dr) /\
  np.le (Fin 0) (avg_daily_move dr).
Proof.
  intros Hpos Hlen dr. subst dr.
  rewrite daily_returns_spec by assumption.
  set (r := spec_return_series price).
  assert (Hr : length r = (length price - 1)%nat)
    by apply spec_return_series_length.
  assert (Hne : r <> []) by (intro E; rewrite E in Hr; simpl in Hr; lia).
  destruct (max_Fin r Hne) as (g & Hg & Hgin & Hgmax).
  destruct (min_Fin r Hne) as (m & Hm & Hmin & Hmmin).
  assert (Habs : map Rabs r <> [])
    by (intro E; apply map_eq_nil in E; contradiction).
  assert (Hn : 0 < INR (length r)).
  { apply lt_0_INR. destruct r; [contradiction | simpl; lia]. }
  unfold max_daily_loss, max_daily_gain, avg_daily_move.
  rewrite Hg, Hm, abs_Fin, (mean_Fin _ Habs).
  unfold np.le. rewrite !leb_Fin. repeat split.
  - assert (Hall : Forall (fun x => -1 < x) r).
    { subst r. destruct price as [| x l]; [simpl in Hlen; lia |].
      inversion Hpos; subst. rewrite <- Rpct_from_spec.
      apply returns_above_minus_one; assumption. }
    rewrite Forall_forall in Hall. left. apply Hall, Hmin.
  - apply Hgmax, Hmin.
  - unfold spec_mean. rewrite length_map.
    apply Rmult_le_pos; [apply Rsum_abs_nonneg |].
    left. apply Rinv_0_lt_compat, Hn.
Qed.

Lemma statistics_bounds_witness :
  let dr := daily_returns (map Fin [100; 110; 99]) in
  np.le (Fin (-1)) (max_daily_loss dr) /\
  np.le (max_daily_loss dr) (max_daily_gain dr) /\
  np.le (Fin 0) (avg_daily_move dr).
Proof.
  apply (statistics_bounds [100; 110; 99]).
  - repeat constructor; lra.
  - simpl. lia.
Defined.

Lemma MaxRlist_zeros n : MaxRlist (repeat 0 (S n)) = 0.
Proof.
  assert (H : In (MaxRlist (repeat 0 (S n))) (repeat 0 (S n))).
  { apply MaxRlist_P2. exists 0. now left. }
  apply repeat_spec in H. exact H.
Qed.

Lemma MinRlist_zeros n : MinRlist (repeat 0 (S n)) = 0.
Proof.
  assert (H : In (MinRlist (repeat 0 (S n))) (repeat 0 (S n))).
  { apply MinRlist_In. discriminate. }
  apply repeat_spec in H. exact H.
Qed.

(** X8.  A series of equal positive closes with at least two points has
    average daily move, largest gain and largest loss 0.  Its volatility
    is 0 from three points on, and [nan] with exactly two points. *)
Theorem constant_series_statistics (c : R) (n : nat) :
  0 < c ->
  let dr := daily_returns (map Fin (repeat c (S (S n)))) in
  avg_daily_move dr = Fin 0 /\
  max_daily_gain dr = Fin 0 /\
  max_daily_loss dr = Fin 0 /\
  volatility dr = match n with O => NaN | S _ => Fin 0 end.
Proof.
  intros Hc dr. subst dr.
  rewrite constant_series_returns by assumption.
  repeat split.
  - unfold avg_daily_move. rewrite abs_Fin, mean_Fin by discriminate.
    f_equal. unfold spec_mean. rewrite map_repeat, Rabs_R0, Rsum_zeros.
    unfold Rdiv. ring.
  - unfold max_daily_gain, Pandas.max. rewrite dropna_Fin.
    cbn [repeat map]. rewrite fold_maximum_Fin.
    f_equal. apply (MaxRlist_zeros n).
  - unfold max_daily_loss, Pandas.min. rewrite dropna_Fin.
    cbn [repeat map]. rewrite fold_minimum_Fin.
    f_equal. apply (MinRlist_zeros n).
  - destruct n as [| n].
    + apply volatility_short. rewrite dropna_Fin. simpl. lia.
    + rewrite volatility_Fin by (rewrite repeat_length; lia).
      rewrite spec_sample_stdev_zeros. f_equal. ring.
Qed.

Lemma constant_series_statistics_witness :
  let dr := daily_returns (map Fin (repeat 100 2)) in
  avg_daily_move dr = Fin 0 /\
  max_daily_gain dr = Fin 0 /\
  max_daily_loss dr = Fin 0 /\
  volatility dr = NaN.
Proof. apply (constant_series_statistics 100 0). lra. Defined.

(** ** The explanation *)

(** The two lines of the position status, as the explanation words
    them. *)
Definition in_the_money_text (format_2f : np_float -> string)
    (side : string) (amount : np_float) : string :=
  ("✅ IN THE MONEY: The stock price is " ++ side ++ " your strike price"
   ++ nl ++ "   You're currently up $" ++ format_2f amount ++ " per share"
   ++ nl)%string.

Definition out_of_the_money_text (format_2f : np_float -> string)
    (side move : string) (amount : np_float) : string :=
  ("⚠️ OUT OF THE MONEY: The stock price is " ++ side
   ++ " your strike price" ++ nl
   ++ "   You need the stock to " ++ move ++ " $" ++ format_2f amount
   ++ " to break even" ++ nl)%string.

Definition position_status_of (text : string) : string :=
  (nl ++ "📊 POSITION STATUS:" ++ nl ++ text)%string.

Section PositionStatus.

Variable format_2f : np_float -> string.
Variables S K : R.
Variable a : Analysis.t.
Hypothesis a_current_price : Analysis.current_price a = Fin S.
Hypothesis a_strike_price : Analysis.strike_price a = Fin K.

Lemma position_status_call :
  Analysis.option_type a = "call"%string ->
  (K < S ->
   Explain.position_status format_2f a
   = position_status_of (in_the_money_text format_2f "above" (Fin (S - K))))
  /\
  (S <= K ->
   Explain.position_status format_2f a
   = position_status_of
       (out_of_the_money_text format_2f "below" "rise" (Fin (K - S)))).
Proof.
  intro Hot. unfold Explain.position_status, Explain.is_call.
  rewrite Hot, a_current_price, a_strike_price. cbn [String.eqb Ascii.eqb].
  split; intro H.
  - apply ltb_Fin in H. rewrite H. reflexivity.
  - apply ltb_Fin_false in H. rewrite H. reflexivity.
Qed.

Lemma position_status_not_call :
  String.eqb (Analysis.option_type a) "call" = false ->
  (S < K ->
   Explain.position_status format_2f a
   = position_status_of (in_the_money_text format_2f "below" (Fin (K - S))))
  /\
  (K <= S ->
   Explain.position_status format_2f a
   = position_status_of
       (out_of_the_money_text format_2f "above" "fall" (Fin (S - K)))).
Proof.
  intro Hot. unfold Explain.position_status, Explain.is_call.
  rewrite Hot, a_current_price, a_strike_price.
  split; intro H.
  - apply ltb_Fin in H. rewrite H. reflexivity.
  - apply ltb_Fin_false in H. rewrite H. reflexivity.
Qed.

End PositionStatus.

(** X9.  With positive prices, a positive volatility and positive days
    to expiry that convert to a float, the position status of the
    explanation agrees with the probability of profit of the analysis it
    explains: a call is reported in the money when the current price is
    above the strike, and its probability is then at least 1/2;
    otherwise, the strike equal to the current price included, it is
    reported out of the money and the probability is at most 1/2.  Every
    other option type is read as a put, in the money when the current
    price is below the strike. *)
Theorem position_status_agrees_with_probability
    (history : string -> exn + Pandas.Series)
    (self : ComprehensiveOptionsAnalyzer) (format_2f : np_float -> string)
    (ticker : string) (hist : Pandas.Series) (S K sigma : R) (d : Z)
    (ot : string) (amt : R) :
  history ticker = inr hist -> Pandas.iloc_last hist = inr (Fin S) ->
  volatility (daily_returns hist) = Fin sigma ->
  0 < S -> 0 < K -> 0 < sigma -> (0 < d < float_limit)%Z ->
  exists a p,
    fst (run (analyze_option history self ticker (Fin K) d ot amt)) = inr a /\
    Analysis.prob_profit a = Fin p /\
    (ot = "call"%string ->
     (K < S ->
      Explain.position_status format_2f a
      = position_status_of
          (in_the_money_text format_2f "above" (Fin (S - K)))
      /\ 1 / 2 <= p) /\
     (S <= K ->
      Explain.position_status format_2f a
      = position_status_of
          (out_of_the_money_text format_2f "below" "rise" (Fin (K - S)))
      /\ p <= 1 / 2)) /\
    (ot <> "call"%string ->
     (S < K ->
      Explain.position_status format_2f a
      = position_status_of
          (in_the_money_text format_2f "below" (Fin (K - S)))
      /\ 1 / 2 <= p) /\
     (K <= S ->
      Explain.position_status format_2f a
      = position_status_of
          (out_of_the_money_text format_2f "above" "fall" (Fin (S - K)))
      /\ p <= 1 / 2)).
Proof.
  intros Hh Hl Hv HS HK Hs Hrange.
  assert (Hd : (0 < d)%Z) by lia.
  rewrite (analyze_option_fetched history self ticker (Fin K) d ot amt hist
             (Fin S) Hh Hl (positive_in_range d Hrange)).
  set (a := analysis_of hist (Fin S) ticker (Fin K) d ot amt).
  destruct (threshold_sign S K sigma d HS HK Hd Hs) as [Hpos Hneg].
  pose proof (Phi_half_sign (threshold S K sigma d)) as [Hge Hle].
  destruct (String.eqb_spec ot "call") as [-> | Hot].
  - exists a, (1 - Phi (threshold S K sigma d)).
    split; [reflexivity |]. split.
    { subst a. cbn [analysis_of Analysis.prob_profit]. rewrite Hv.
      apply prob_profit_call_valid; assumption. }
    split; [| intro H; contradiction].
    intros _.
    destruct (position_status_call format_2f S K a eq_refl eq_refl eq_refl)
      as [Hin Hout].
    split; intro H; (split; [auto |]).
    + specialize (Hneg (Rlt_le _ _ H)). specialize (Hle Hneg). lra.
    + specialize (Hpos H). specialize (Hge Hpos). lra.
  - exists a, (Phi (threshold S K sigma d)).
    split; [reflexivity |]. split.
    { subst a. cbn [analysis_of Analysis.prob_profit]. rewrite Hv.
      rewrite prob_profit_not_call, standardized_valid by assumption.
      reflexivity. }
    split; [intro H; contradiction |].
    intros _.
    assert (Hb : String.eqb (Analysis.option_type a) "call" = false)
      by (apply String.eqb_neq, Hot).
    destruct (position_status_not_call format_2f S K a eq_refl eq_refl Hb)
      as [Hin Hout].
    split; intro H; (split; [auto |]).
    + apply Hge, Hpos. lra.
    + apply Hle, Hneg, H.
Qed.

Lemma returns_of_three_closes :
  spec_return_series [100; 110; 99] = [110 / 100 - 1; 99 / 110 - 1].
Proof. reflexivity. Qed.

Lemma position_status_agrees_with_probability_witness :
  exists a p,
    fst (run (analyze_option (fun _ => inr (map Fin [100; 110; 99])) init
                "AAPL" (Fin 90) 30 "call" 1000)) = inr a /\
    Analysis.prob_profit a = Fin p /\
    Explain.position_status (fun _ => "9.00"%string) a
    = position_status_of
        (in_the_money_text (fun _ => "9.00"%string) "above" (Fin (99 - 90)))
    /\ 1 / 2 <= p.
Proof.
  assert (Hr : (2 <= length (spec_return_series [100; 110; 99]%R))%nat)
    by (simpl; lia).
  assert (Hsd : 0 < spec_sample_stdev (spec_return_series [100; 110; 99])).
  { destruct (spec_sample_stdev_nonneg (spec_return_series [100; 110; 99]))
      as [Hlt | Heq]; [exact Hlt | exfalso].
    symmetry in Heq.
    pose proof (proj1 (spec_sample_stdev_zero_iff _ Hr) Heq
                  (110 / 100 - 1) (99 / 110 - 1)) as Hc.
    rewrite returns_of_three_closes in Hc.
    specialize (Hc (or_introl eq_refl) (or_intror (or_introl eq_refl))).
    lra. }
  destruct (position_status_agrees_with_probability
              (fun _ => inr (map Fin [100; 110; 99])) init
              (fun _ => "9.00"%string) "AAPL" (map Fin [100; 110; 99])
              99 90
              (spec_sample_stdev (spec_return_series [100; 110; 99])
               * sqrt 252)
              30 "call" 1000)
    as (a & p & Ha & Hp & Hcall & _); try reflexivity; try lra.
  - rewrite daily_returns_spec by (repeat constructor; lra).
    apply volatility_Fin, Hr.
  - apply Rmult_lt_0_compat; [exact Hsd | apply sqrt_lt_R0; lra].
  - apply thirty_in_range.
  - exists a, p. split; [exact Ha |]. split; [exact Hp |].
    apply Hcall; [reflexivity | lra].
Defined.

(** X10.  In the two scenarios of the explanation (current price positive,
    strike finite) the option is never worth less than 0.  A call is
    worth [max (1.1 * current - strike) 0] if the stock goes up 10% and
    [max (0.9 * current - strike) 0] if it goes down, so at least as
    much up as down; every other option type is valued as a put, worth at
    least as much down as up. *)
Theorem scenario_worth (a : Analysis.t) (S K : R) :
  Analysis.current_price a = Fin S -> Analysis.strike_price a = Fin K ->
  0 < S ->
  exists up down : R,
    Explain.scenario_profit a (Explain.price_up_10 a) = Fin up /\
    Explain.scenario_profit a (Explain.price_down_10 a) = Fin down /\
    0 <= up /\ 0 <= down /\
    (Analysis.option_type a = "call"%string ->
     up = Rmax (S * (110 / 100) - K) 0 /\
     down = Rmax (S * (90 / 100) - K) 0 /\ down <= up) /\
    (Analysis.option_type a <> "call"%string ->
     up = Rmax (K - S * (110 / 100)) 0 /\
     down = Rmax (K - S * (90 / 100)) 0 /\ up <= down).
Proof.
  intros Hc Hk HS.
  unfold Explain.scenario_profit, Explain.price_up_10, Explain.price_down_10,
    Explain.is_call.
  rewrite Hc, Hk. cbn [np.mul np.sub np.add np.neg].
  destruct (String.eqb_spec (Analysis.option_type a) "call") as [Hot | Hot];
    eexists; eexists; rewrite !py_max_Fin;
    (split; [reflexivity |]); (split; [reflexivity |]);
    (split; [apply Rmax_r |]); (split; [apply Rmax_r |]);
    (split; [intro H | intro H]); try contradiction;
    (split; [reflexivity |]); (split; [reflexivity |]);
    unfold Rmax; repeat destruct (Rle_dec _ _); lra.
Qed.

Lemma scenario_worth_witness :
  exists up down : R,
    Explain.scenario_profit
      (Analysis.mk "AAPL" (Fin 150) (Fin 170) 30 (Fin (1 / 4)) (Fin 0)
         (Fin 0) (Fin 0) (Fin (1 / 4)) 1000 "call")
      (Fin (150 * (110 / 100))) = Fin up /\
    Explain.scenario_profit
      (Analysis.mk "AAPL" (Fin 150) (Fin 170) 30 (Fin (1 / 4)) (Fin 0)
         (Fin 0) (Fin 0) (Fin (1 / 4)) 1000 "call")
      (Fin (150 * (90 / 100))) = Fin down /\
    0 <= up /\ 0 <= down.
Proof.
  destruct (scenario_worth
              (Analysis.mk "AAPL" (Fin 150) (Fin 170) 30 (Fin (1 / 4)) (Fin 0)
                 (Fin 0) (Fin 0) (Fin (1 / 4)) 1000 "call") 150 170)
    as (up & down & Hu & Hd & Hu0 & Hd0 & _); try reflexivity; try lra.
  exists up, down. repeat split; assumption.
Defined.

(** ** The investment amount in the explanation and in the diagram *)

Lemma explain_ignores_amount format_2f format_1pct upper
    hist cp ticker sp d ot amt1 amt2 :
  Explain.explain_analysis format_2f format_1pct upper
    (analysis_of hist cp ticker sp d ot amt1)
  = Explain.explain_analysis format_2f format_1pct upper
      (analysis_of hist cp ticker sp d ot amt2).
Proof. reflexivity. Qed.

(** X11.  The investment amount reaches neither the explanation nor the
    payoff diagram: two runs of the analyzer that differ only in it
    raise the same exception, or return analyses with the same
    explanation, the same price range and the same profit curve. *)
Theorem investment_amount_not_explained
    (history : string -> exn + Pandas.Series)
    (self : ComprehensiveOptionsAnalyzer)
    (format_2f format_1pct : np_float -> string) (upper : string -> string)
    (ticker : string) (sp : np_float) (d : Z) (ot : string) (amt1 amt2 : R) :
  match fst (run (analyze_option history self ticker sp d ot amt1)),
        fst (run (analyze_option history self ticker sp d ot amt2)) with
  | inr a1, inr a2 =>
      Explain.explain_analysis format_2f format_1pct upper a1
      = Explain.explain_analysis format_2f format_1pct upper a2 /\
      Plot.price_range a1 = Plot.price_range a2 /\
      Plot.profit a1 = Plot.profit a2
  | inl e1, inl e2 => e1 = e2
  | _, _ => False
  end.
Proof.
  destruct (history ticker) as [e | hist] eqn:Hh.
  - rewrite !(analyze_option_raised history self ticker sp d ot _ e Hh).
    reflexivity.
  - destruct hist as [| x l].
    + rewrite !(analyze_option_empty history self ticker sp d ot _ Hh).
      reflexivity.
    + assert (Hne : x :: l <> []) by discriminate.
      destruct (Z.ltb_spec (Z.abs d) float_limit) as [Hd | Hd].
      * rewrite !(analyze_option_fetched history self ticker sp d ot _
                    (x :: l) _ Hh (iloc_last_nonempty _ Hne) Hd).
        cbn [fst]. repeat split; reflexivity.
      * rewrite !(analyze_option_overflow history self ticker sp d ot _
                    (x :: l) _ Hh (iloc_last_nonempty _ Hne) Hd).
        reflexivity.
Qed.

(** ** The entry point *)

(** X12.  [main] prints the explanation only of an analysis that
    succeeded.  When the collaborator raises, [main] raises the same
    exception after the line printed on entry; when the history is empty
    it raises [IndexError]; otherwise it prints the entry line, shows the
    figure and prints the explanation of the analysis of AAPL with strike
    170, 30 days, a call, in that order, and returns. *)
Theorem main_trace
    (history : string -> exn + Pandas.Series)
    (format_2f format_1pct : np_float -> string) (upper : string -> string) :
  match history "AAPL"%string with
  | inl e =>
      run (main history format_2f format_1pct upper)
      = (inl e, [Print (banner "AAPL" "call")])
  | inr [] =>
      run (main history format_2f format_1pct upper)
      = (inl IndexError, [Print (banner "AAPL" "call")])
  | inr hist =>
      let a := analysis_of hist (last hist NaN) "AAPL" (Fin 170) 30 "call"
                 1000 in
      run (main history format_2f format_1pct upper)
      = (inr tt,
         [Print (banner "AAPL" "call"); Plot a hist;
          Print (Explain.explain_analysis format_2f format_1pct upper a)])
  end.
Proof.
  pose proof (analyze_option_raised history init "AAPL" (Fin 170) 30 "call"
                1000) as Hraised.
  pose proof (analyze_option_empty history init "AAPL" (Fin 170) 30 "call"
                1000) as Hempty.
  pose proof (analyze_option_fetched history init "AAPL" (Fin 170) 30 "call"
                1000) as Hfetched.
  unfold main, run, bind in *.
  destruct (history "AAPL"%string) as [e | hist].
  - rewrite (Hraised e eq_refl). reflexivity.
  - destruct hist as [| x l].
    + rewrite (Hempty eq_refl). reflexivity.
    + assert (Hne : x :: l <> []) by discriminate.
      rewrite (Hfetched (x :: l) _ eq_refl (iloc_last_nonempty _ Hne)
                 thirty_abs_in_range).
      reflexivity.
Qed.

(** ** The payoff diagram *)

Section PayoffDiagram.

Variable a : Analysis.t.
Variables S K : R.
Hypothesis a_current_price : Analysis.current_price a = Fin S.
Hypothesis a_strike_price : Analysis.strike_price a = Fin K.

(** The price at the [i]-th point of the horizontal axis. *)
Definition grid_price (i : nat) : R :=
  S * (7 / 10) + INR i * ((S * (13 / 10) - S * (7 / 10)) / 99).

Lemma INR_99 : INR 99 = 99.
Proof. rewrite INR_IZR_INZ. reflexivity. Qed.

Lemma price_range_eq :
  Plot.price_range a = map (fun i => Fin (grid_price i)) (seq 0 100).
Proof.
  unfold Plot.price_range, Plot.linspace. rewrite a_current_price.
  cbn [np.mul np.sub np.add np.neg].
  rewrite div_Fin by (rewrite INR_99; lra).
  change 100%nat with (99 + 1)%nat at 1.
  rewrite seq_app, map_app. f_equal.
  - apply map_ext. intro i. cbn [np.mul np.add]. f_equal.
    unfold grid_price. rewrite INR_99. unfold Rminus. ring.
  - cbn [seq map Nat.add]. f_equal. f_equal.
    unfold grid_price. rewrite INR_99. field.
Qed.

Lemma grid_price_increasing i j :
  0 < S -> (i <= j)%nat -> grid_price i <= grid_price j.
Proof.
  intros HS Hij. apply le_INR in Hij. unfold grid_price. nra.
Qed.

Lemma profit_call_eq :
  Analysis.option_type a = "call"%string ->
  Plot.profit a
  = map (fun i => Fin (Rmax (grid_price i - K) 0 - (S - K))) (seq 0 100).
Proof.
  intro Hot. unfold Plot.profit.
  rewrite Hot, price_range_eq, a_current_price, a_strike_price.
  cbn [String.eqb Ascii.eqb Bool.eqb]. rewrite map_map.
  apply map_ext. intro i.
  cbn [np.sub np.add np.neg]. rewrite np_maximum_Fin. reflexivity.
Qed.

Lemma profit_put_eq :
  Analysis.option_type a <> "call"%string ->
  Plot.profit a
  = map (fun i => Fin (Rmax (K - grid_price i) 0 - (K - S))) (seq 0 100).
Proof.
  intro Hot. apply String.eqb_neq in Hot. unfold Plot.profit.
  rewrite Hot, price_range_eq, a_current_price, a_strike_price.
  rewrite map_map. apply map_ext. intro i.
  cbn [np.sub np.add np.neg]. rewrite np_maximum_Fin. reflexivity.
Qed.

Lemma nth_grid (f : nat -> R) (i : nat) :
  (i < 100)%nat -> nth i (map (fun k => Fin (f k)) (seq 0 100)) NaN = Fin (f i).
Proof.
  intro Hi.
  rewrite (nth_indep _ NaN (Fin (f 0%nat)))
    by (rewrite length_map, length_seq; exact Hi).
  rewrite (map_nth (fun k => Fin (f k)) (seq 0 100) 0%nat i).
  rewrite seq_nth by exact Hi. reflexivity.
Qed.

End PayoffDiagram.

(** X13.  The horizontal axis of the payoff diagram has 100 prices,
    evenly spaced from 0.7 to 1.3 times the current price: the [i]-th is
    [current * (0.7 + 0.6 * i / 99)], and for a positive current price
    they increase. *)
Theorem price_range_grid (a : Analysis.t) (S : R) :
  Analysis.current_price a = Fin S ->
  length (Plot.price_range a) = 100%nat /\
  (forall i, (i < 100)%nat ->
     nth i (Plot.price_range a) NaN
     = Fin (S * (7 / 10 + 6 / 10 * INR i / 99))) /\
  (0 < S ->
   forall i j, (i <= j)%nat -> (j < 100)%nat ->
     np.le (nth i (Plot.price_range a) NaN) (nth j (Plot.price_range a) NaN)).
Proof.
  intro Hc. rewrite (price_range_eq a S Hc).
  split; [rewrite length_map, length_seq; reflexivity |]. split.
  - intros i Hi. rewrite (nth_grid (grid_price S) i Hi). f_equal.
    unfold grid_price. field.
  - intros HS i j Hij Hj.
    rewrite !(nth_grid (grid_price S)) by lia.
    apply leb_Fin, grid_price_increasing; assumption.
Qed.

Lemma price_range_grid_witness :
  nth 0 (Plot.price_range
           (Analysis.mk "AAPL" (Fin 150) (Fin 170) 30 (Fin (1 / 4)) (Fin 0)
              (Fin 0) (Fin 0) (Fin (1 / 4)) 1000 "call")) NaN
  = Fin (150 * (7 / 10 + 6 / 10 * INR 0 / 99)).
Proof.
  destruct (price_range_grid
              (Analysis.mk "AAPL" (Fin 150) (Fin 170) 30 (Fin (1 / 4)) (Fin 0)
                 (Fin 0) (Fin 0) (Fin (1 / 4)) 1000 "call") 150 eq_refl)
    as (_ & Hnth & _).
  apply Hnth. lia.
Defined.

(** X14.  The profit drawn for a call is never below
    [strike - current], and never below [current - strike] for any other
    option type.  So for a call whose strike is at or above the current
    price, and for a put whose strike is at or below it, the diagram
    shows no loss at any price. *)
Theorem profit_floor (a : Analysis.t) (S K : R) :
  Analysis.current_price a = Fin S -> Analysis.strike_price a = Fin K ->
  let floor := if String.eqb (Analysis.option_type a) "call"
               then K - S else S - K in
  length (Plot.profit a) = 100%nat /\
  forall i, (i < 100)%nat ->
    exists v : R, nth i (Plot.profit a) NaN = Fin v /\ floor <= v /\
                  (0 <= floor -> 0 <= v).
Proof.
  intros Hc Hk floor. subst floor.
  destruct (String.eqb_spec (Analysis.option_type a) "call") as [Hot | Hot].
  - rewrite (profit_call_eq a S K Hc Hk Hot). split.
    + rewrite length_map, length_seq. reflexivity.
    + intros i Hi.
      rewrite (nth_grid (fun k => Rmax (grid_price S k - K) 0 - (S - K)) i Hi).
      eexists. split; [reflexivity |].
      pose proof (Rmax_r (grid_price S i - K) 0). split; intros; lra.
  - rewrite (profit_put_eq a S K Hc Hk Hot). split.
    + rewrite length_map, length_seq. reflexivity.
    + intros i Hi.
      rewrite (nth_grid (fun k => Rmax (K - grid_price S k) 0 - (K - S)) i Hi).
      eexists. split; [reflexivity |].
      pose proof (Rmax_r (K - grid_price S i) 0). split; intros; lra.
Qed.

Lemma profit_floor_witness :
  exists v : R,
    nth 0 (Plot.profit
             (Analysis.mk "AAPL" (Fin 150) (Fin 170) 30 (Fin (1 / 4)) (Fin 0)
                (Fin 0) (Fin 0) (Fin (1 / 4)) 1000 "call")) NaN = Fin v /\
    170 - 150 <= v /\ (0 <= 170 - 150 -> 0 <= v).
Proof.
  destruct (profit_floor
              (Analysis.mk "AAPL" (Fin 150) (Fin 170) 30 (Fin (1 / 4)) (Fin 0)
                 (Fin 0) (Fin 0) (Fin (1 / 4)) 1000 "call") 150 170
              eq_refl eq_refl) as (_ & Hnth).
  apply (Hnth 0%nat). lia.
Defined.

(** X15.  Along the price range (current price positive) the profit
    drawn for a call never falls, and the profit drawn for any other
    option type never rises. *)
Theorem profit_monotone (a : Analysis.t) (S K : R) (i j : nat) :
  Analysis.current_price a = Fin S -> Analysis.strike_price a = Fin K ->
  0 < S -> (i <= j)%nat -> (j < 100)%nat ->
  if String.eqb (Analysis.option_type a) "call"
  then np.le (nth i (Plot.profit a) NaN) (nth j (Plot.profit a) NaN)
  else np.le (nth j (Plot.profit a) NaN) (nth i (Plot.profit a) NaN).
Proof.
  intros Hc Hk HS Hij Hj.
  pose proof (grid_price_increasing S i j HS Hij) as Hg.
  destruct (String.eqb_spec (Analysis.option_type a) "call") as [Hot | Hot].
  - rewrite (profit_call_eq a S K Hc Hk Hot).
    rewrite !(nth_grid (fun k => Rmax (grid_price S k - K) 0 - (S - K)))
      by lia.
    apply leb_Fin. unfold Rmax. repeat destruct (Rle_dec _ _); lra.
  - rewrite (profit_put_eq a S K Hc Hk Hot).
    rewrite !(nth_grid (fun k => Rmax (K - grid_price S k) 0 - (K - S)))
      by lia.
    apply leb_Fin. unfold Rmax. repeat destruct (Rle_dec _ _); lra.
Qed.

Lemma profit_monotone_witness :
  np.le
    (nth 0 (Plot.profit
              (Analysis.mk "AAPL" (Fin 150) (Fin 170) 30 (Fin (1 / 4))
                 (Fin 0) (Fin 0) (Fin 0) (Fin (1 / 4)) 1000 "call")) NaN)
    (nth 99 (Plot.profit
               (Analysis.mk "AAPL" (Fin 150) (Fin 170) 30 (Fin (1 / 4))
                  (Fin 0) (Fin 0) (Fin 0) (Fin (1 / 4)) 1000 "call")) NaN).
Proof.
  apply (profit_monotone
           (Analysis.mk "AAPL" (Fin 150) (Fin 170) 30 (Fin (1 / 4)) (Fin 0)
              (Fin 0) (Fin 0) (Fin (1 / 4)) 1000 "call") 150 170 0 99);
    try reflexivity; try lra; lia.
Defined.
